(** * swift-ring-master: the ring utilities of [srm/utils.py]

    A shallow embedding of the helper functions the ring minion relies on
    (digest of a file, digest comparison, timestamped backups, structural
    validation of a ring file, the e-mail notifier's constructor), together
    with the properties the design document states about them.

    Conventions.
    - A Python [str] is a [string], a [bytes] value is a [list byte].
    - A Python exception is a value of [exn]; a call that may raise returns
      an [outcome].
    - Code that touches the file system is a function of the file system
      state [FS] and returns the state it leaves behind, also when it
      raises. *)

From Stdlib Require Import ZArith List String Ascii Lia.
From Stdlib.Strings Require Import Byte.
From Stdlib Require Import QArith_base.
From Stdlib Require DecimalString DecimalZ DecimalFacts.
From stdpp Require Import gmap strings list.
From Equations Require Import Equations.

Local Open Scope string_scope.
Local Open Scope list_scope.
Local Open Scope Z_scope.

(** * The embedding *)

(** ** Exceptions and outcomes *)

(** [errno] values used by the calls below (Linux numbering). *)
Definition ENOENT : Z := 2.
Definition EEXIST : Z := 17.
Definition ENOTDIR : Z := 20.
Definition EISDIR : Z := 21.

(** The subclasses of Python's [Exception] that the modelled code can meet. *)
Inductive exn : Type :=
| OSError (errno : Z)
| SameFileError
| AttributeError
| ValueError
| Exception (msg : string)
| LibraryError (name : string).

Inductive outcome (A : Type) : Type :=
| Returned (a : A)
| Raised (e : exn).
Arguments Returned {A} a.
Arguments Raised {A} e.

#[global] Instance exn_eq_dec : EqDecision exn.
Proof. solve_decision. Defined.

(** ** hashlib.md5 (RFC 1321)

    The hash object of [hashlib] is modelled by the bytes it has been fed:
    [update] appends, [hexdigest] hashes what was accumulated. *)
Module MD5.

Definition mask32 : Z := 0xFFFFFFFF.
Definition add32 (a b : Z) : Z := Z.land (a + b) mask32.
Definition not32 (a : Z) : Z := Z.lxor a mask32.
Definition rotl32 (x c : Z) : Z :=
  Z.lor (Z.land (Z.shiftl x c) mask32) (Z.shiftr x (32 - c)).

Definition S_table : list Z :=
  [7; 12; 17; 22; 7; 12; 17; 22; 7; 12; 17; 22; 7; 12; 17; 22;
   5; 9; 14; 20; 5; 9; 14; 20; 5; 9; 14; 20; 5; 9; 14; 20;
   4; 11; 16; 23; 4; 11; 16; 23; 4; 11; 16; 23; 4; 11; 16; 23;
   6; 10; 15; 21; 6; 10; 15; 21; 6; 10; 15; 21; 6; 10; 15; 21].

Definition K_table : list Z :=
  [0xd76aa478; 0xe8c7b756; 0x242070db; 0xc1bdceee;
   0xf57c0faf; 0x4787c62a; 0xa8304613; 0xfd469501;
   0x698098d8; 0x8b44f7af; 0xffff5bb1; 0x895cd7be;
   0x6b901122; 0xfd987193; 0xa679438e; 0x49b40821;
   0xf61e2562; 0xc040b340; 0x265e5a51; 0xe9b6c7aa;
   0xd62f105d; 0x02441453; 0xd8a1e681; 0xe7d3fbc8;
   0x21e1cde6; 0xc33707d6; 0xf4d50d87; 0x455a14ed;
   0xa9e3e905; 0xfcefa3f8; 0x676f02d9; 0x8d2a4c8a;
   0xfffa3942; 0x8771f681; 0x6d9d6122; 0xfde5380c;
   0xa4beea44; 0x4bdecfa9; 0xf6bb4b60; 0xbebfbc70;
   0x289b7ec6; 0xeaa127fa; 0xd4ef3085; 0x04881d05;
   0xd9d4d039; 0xe6db99e5; 0x1fa27cf8; 0xc4ac5665;
   0xf4292244; 0x432aff97; 0xab9423a7; 0xfc93a039;
   0x655b59c3; 0x8f0ccc92; 0xffeff47d; 0x85845dd1;
   0x6fa87e4f; 0xfe2ce6e0; 0xa3014314; 0x4e0811a1;
   0xf7537e82; 0xbd3af235; 0x2ad7d2bb; 0xeb86d391].

Definition byteZ (b : byte) : Z := Z.of_N (Byte.to_N b).

(** Little-endian readers and writers. *)
Fixpoint le_word (bs : list Z) : Z :=
  match bs with
  | [] => 0
  | b :: bs' => b + 256 * le_word bs'
  end.

Fixpoint le_bytes (n : nat) (w : Z) : list Z :=
  match n with
  | O => []
  | S n' => Z.land w 255 :: le_bytes n' (Z.shiftr w 8)
  end.

Fixpoint chunks {A : Type} (size count : nat) (l : list A) : list (list A) :=
  match count with
  | O => []
  | S count' => take size l :: chunks size count' (drop size l)
  end.

(** Message padding: a one bit, zeros up to 56 modulo 64, the bit length. *)
Definition pad (msg : list Z) : list Z :=
  let len := Z.of_nat (length msg) in
  let zeros := Z.to_nat ((55 - len) mod 64) in
  msg ++ [128] ++ repeat 0 zeros ++ le_bytes 8 (Z.land (8 * len) (2 ^ 64 - 1)).

Definition round_fn (i : Z) (b c d : Z) : Z * Z :=
  if i <? 16 then (Z.lor (Z.land b c) (Z.land (not32 b) d), i)
  else if i <? 32 then (Z.lor (Z.land d b) (Z.land (not32 d) c), (5 * i + 1) mod 16)
  else if i <? 48 then (Z.lxor (Z.lxor b c) d, (3 * i + 5) mod 16)
  else (Z.lxor c (Z.lor b (not32 d)), (7 * i) mod 16).

Definition word_at (l : list Z) (i : Z) : Z := nth (Z.to_nat i) l 0.

Definition step (m : list Z) (st : Z * Z * Z * Z) (i : Z) : Z * Z * Z * Z :=
  let '(a, b, c, d) := st in
  let '(f, g) := round_fn i b c d in
  let f' := add32 (add32 (add32 f a) (word_at K_table i)) (word_at m g) in
  (d, add32 b (rotl32 f' (word_at S_table i)), b, c).

Definition compress (st : Z * Z * Z * Z) (block : list Z) : Z * Z * Z * Z :=
  let m := le_word <$> chunks 4 16 block in
  let '(a0, b0, c0, d0) := st in
  let '(a, b, c, d) := fold_left (step m) (Z.of_nat <$> seq 0 64) st in
  (add32 a0 a, add32 b0 b, add32 c0 c, add32 d0 d).

Definition init_state : Z * Z * Z * Z :=
  (0x67452301, 0xefcdab89, 0x98badcfe, 0x10325476).

Definition digest (msg : list byte) : list Z :=
  let padded := pad (byteZ <$> msg) in
  let '(a, b, c, d) :=
    fold_left compress (chunks 64 (length padded / 64) padded) init_state in
  le_bytes 4 a ++ le_bytes 4 b ++ le_bytes 4 c ++ le_bytes 4 d.

Definition hex_digit (n : Z) : ascii :=
  nth (Z.to_nat n) (list_ascii_of_string "0123456789abcdef") "0"%char.

Fixpoint hex (bs : list Z) : string :=
  match bs with
  | [] => ""
  | b :: bs' => String (hex_digit (b / 16)) (String (hex_digit (b mod 16)) (hex bs'))
  end.

(** The hash object: [md5()], [update], [hexdigest]. *)
Definition t : Type := list byte.
Definition new : t := [].
Definition update (h : t) (block : list byte) : t := h ++ block.
Definition hexdigest (h : t) : string := hex (digest h).

End MD5.

Arguments MD5.hexdigest : simpl never.
Arguments MD5.digest : simpl never.

(** The one-shot digest of a byte string, [md5(B).hexdigest()]. *)
Definition md5_hex (B : list byte) : string :=
  MD5.hexdigest (MD5.update MD5.new B).

(** Proofs below never look inside the compression function. *)
#[global] Opaque MD5.digest MD5.hex.

(** ** Python strings *)

(** [s.split(c)] for a one-character separator: never empty, one more piece
    than there are separators. *)
Fixpoint split_on (c : ascii) (s : string) : list string :=
  match s with
  | EmptyString => [""]
  | String a s' =>
      if Ascii.eqb a c then "" :: split_on c s'
      else match split_on c s' with
           | [] => [String a ""]
           | w :: ws => String a w :: ws
           end
  end.

Fixpoint contains_char (c : ascii) (s : string) : bool :=
  match s with
  | EmptyString => false
  | String a s' => Ascii.eqb a c || contains_char c s'
  end.

Definition startswith_char (c : ascii) (s : string) : bool :=
  match s with
  | String a _ => Ascii.eqb a c
  | EmptyString => false
  end.

Fixpoint endswith_char (c : ascii) (s : string) : bool :=
  match s with
  | EmptyString => false
  | String a EmptyString => Ascii.eqb a c
  | String _ s' => endswith_char c s'
  end.

(** The characters [str.strip()] and [int()] treat as blanks (ASCII). *)
Definition is_space (a : ascii) : bool :=
  let n := nat_of_ascii a in
  ((9 <=? n) && (n <=? 13) || (28 <=? n) && (n <=? 32))%nat.

Fixpoint lstrip (s : string) : string :=
  match s with
  | String a s' => if is_space a then lstrip s' else s
  | EmptyString => EmptyString
  end.

Fixpoint rstrip (s : string) : string :=
  match s with
  | EmptyString => EmptyString
  | String a s' =>
      match rstrip s' with
      | EmptyString => if is_space a then EmptyString else String a EmptyString
      | r => String a r
      end
  end.

Definition strip (s : string) : string := rstrip (lstrip s).

(** ['%d' % z]: the decimal numeral of an integer. *)
Definition fmt_d (z : Z) : string :=
  DecimalString.NilEmpty.string_of_int (Z.to_int z).

Definition digit_of (a : ascii) : option Z :=
  let n := nat_of_ascii a in
  if ((48 <=? n) && (n <=? 57))%nat then Some (Z.of_nat n - 48) else None.

Fixpoint parse_digits (s : string) (acc : Z) (after_digit : bool) : option Z :=
  match s with
  | EmptyString => if after_digit then Some acc else None
  | String a s' =>
      if Ascii.eqb a "_" then
        if after_digit then parse_digits s' acc false else None
      else match digit_of a with
           | Some d => parse_digits s' (10 * acc + d) true
           | None => None
           end
  end.

(** [int(s)] for a [str]: blanks around, a sign, decimal digits (single
    underscores between them allowed); [None] stands for [ValueError]. *)
Definition py_int (s : string) : option Z :=
  match strip s with
  | String "-" r => Z.opp <$> parse_digits r 0 false
  | String "+" r => parse_digits r 0 false
  | r => parse_digits r 0 false
  end.

(** ** posixpath *)

(** [os.path.basename(p)]: what follows the last slash. *)
Definition basename (p : string) : string :=
  List.last (split_on "/" p) "".

(** [os.path.join(a, b)] *)
Definition pathjoin (a b : string) : string :=
  if startswith_char "/" b then b
  else if bool_decide (a = "") || endswith_char "/" a then a +:+ b
  else a +:+ "/" +:+ b.

(** ** The file system

    A tree of directories and regular files, addressed by the list of
    names from the root.  Paths are resolved lexically against the current
    directory: empty and [.] components are dropped and [..] steps back
    (there are no symbolic links), so two spellings of one path reach the
    same entry.  Permissions are not part of the state. *)

Inductive node : Type :=
| File (content : list byte)
| Dir.

Record FS : Type := mkFS {
  entries : gmap (list string) node;
  cwd : list string
}.

Definition walk (acc : list string) (c : string) : list string :=
  if bool_decide (c = "") || bool_decide (c = ".") then acc
  else if bool_decide (c = "..") then removelast acc
  else acc ++ [c].

Definition resolve (fs : FS) (p : string) : list string :=
  fold_left walk (split_on "/" p) (if startswith_char "/" p then [] else cwd fs).

(** The root always exists. *)
Definition stat (fs : FS) (p : list string) : option node :=
  match p with
  | [] => Some Dir
  | _ => entries fs !! p
  end.

Definition isdir (fs : FS) (p : string) : bool :=
  match p with
  | EmptyString => false
  | _ => match stat fs (resolve fs p) with Some Dir => true | _ => false end
  end.

(** [open(p, 'rb').read()] as the whole content of the file. *)
Definition open_rb (fs : FS) (p : string) : outcome (list byte) :=
  match p with
  | EmptyString => Raised (OSError ENOENT)
  | _ =>
      match stat fs (resolve fs p) with
      | Some (File content) =>
          if endswith_char "/" p then Raised (OSError ENOTDIR)
          else Returned content
      | Some Dir => Raised (OSError EISDIR)
      | None => Raised (OSError ENOENT)
      end
  end.

(** [open(p, 'wb').write(content)]: creates or truncates the file. *)
Definition write_wb (p : string) (content : list byte) (fs : FS) : FS * outcome unit :=
  match p with
  | EmptyString => (fs, Raised (OSError ENOENT))
  | _ =>
      let r := resolve fs p in
      match stat fs r with
      | Some Dir => (fs, Raised (OSError EISDIR))
      | Some (File _) =>
          if endswith_char "/" p then (fs, Raised (OSError ENOTDIR))
          else (mkFS (<[r := File content]> (entries fs)) (cwd fs), Returned tt)
      | None =>
          match stat fs (removelast r) with
          | Some Dir =>
              if endswith_char "/" p then (fs, Raised (OSError EISDIR))
              else (mkFS (<[r := File content]> (entries fs)) (cwd fs), Returned tt)
          | Some (File _) => (fs, Raised (OSError ENOTDIR))
          | None => (fs, Raised (OSError ENOENT))
          end
      end
  end.

(** [os.mkdir(p)]: the state it leaves and the [errno] of the [OSError] it
    raises, if any. *)
Definition mkdir (p : string) (fs : FS) : FS * option Z :=
  match p with
  | EmptyString => (fs, Some ENOENT)
  | _ =>
      let r := resolve fs p in
      match stat fs r with
      | Some _ => (fs, Some EEXIST)
      | None =>
          match stat fs (removelast r) with
          | Some Dir => (mkFS (<[r := Dir]> (entries fs)) (cwd fs), None)
          | Some (File _) => (fs, Some ENOTDIR)
          | None => (fs, Some ENOENT)
          end
      end
  end.

(** [shutil.copy(src, dst)]: into [dst] when it is a directory, refusing to
    copy a file onto itself; the source is opened before the target. *)
Definition copy (src dst : string) (fs : FS) : FS * outcome unit :=
  let dst := if isdir fs dst then pathjoin dst (basename src) else dst in
  if bool_decide (is_Some (stat fs (resolve fs src)) /\ src <> "" /\ dst <> "" /\
                  resolve fs src = resolve fs dst)
  then (fs, Raised SameFileError)
  else match open_rb fs src with
       | Raised e => (fs, Raised e)
       | Returned content => write_wb dst content fs
       end.

(** ** Reading a file object

    [tfile.read(n)] on a binary file whose unread part is [rest]: the bytes
    returned and the part left unread.  A negative [n] reads to the end. *)
Definition read (n : Z) (rest : list byte) : list byte * list byte :=
  if n <? 0 then (rest, [])
  else (take (Z.to_nat n) rest, drop (Z.to_nat n) rest).

(** ** srm/utils.py *)

(** The [while block:] loop of [get_md5sum], from the first block on. *)
Equations? md5_loop (chunk_size : Z) (md5sum : MD5.t) (block rest : list byte)
  : MD5.t by wf (length block + length rest)%nat lt :=
  md5_loop chunk_size md5sum [] rest := md5sum;
  md5_loop chunk_size md5sum (b :: bs) rest :=
    md5_loop chunk_size (MD5.update md5sum (b :: bs))
             (read chunk_size rest).1 (read chunk_size rest).2.
Proof.
  unfold read. destruct (chunk_size <? 0); simpl.
  - lia.
  - rewrite length_take, length_drop. lia.
Qed.

Definition get_md5sum (filename : string) (chunk_size : Z) (fs : FS) : outcome string :=
  let md5sum := MD5.new in
  match open_rb fs filename with
  | Raised e => Raised e
  | Returned tfile =>
      let '(block, rest) := read chunk_size tfile in
      Returned (MD5.hexdigest (md5_loop chunk_size md5sum block rest))
  end.

(** The default of [chunk_size]. *)
Definition default_chunk_size : Z := 4096.

Definition md5matches (target_file expected_md5 : string) (fs : FS) : outcome bool :=
  match get_md5sum target_file default_chunk_size fs with
  | Raised e => Raised e
  | Returned d => if bool_decide (d = expected_md5) then Returned true else Returned false
  end.

(** [int(x)] of a clock reading, as ['%d' % time()] takes it: towards zero. *)
Definition int_of_time (now : Q) : Z := Z.quot (Qnum now) (Z.pos (Qden now)).

(** The name of the backup: ['%d.' % time() + basename(filename)]. *)
Definition backup_name (now : Q) (filename : string) : string :=
  fmt_d (int_of_time now) +:+ "." +:+ basename filename.

(** The path of the backup of [filename] taken at time [now]. *)
Definition backup_path (now : Q) (filename backup_dir : string) : string :=
  pathjoin backup_dir (backup_name now filename).

(** The copy and the digest that follow the [try] block of [make_backup]. *)
Definition make_backup_copy (now : Q) (filename backup_dir : string) (fs : FS)
  : FS * outcome (string * string) :=
  let backup := backup_path now filename backup_dir in
  match copy filename backup fs with
  | (fs, Raised e) => (fs, Raised e)
  | (fs, Returned _) =>
      match get_md5sum backup default_chunk_size fs with
      | Raised e => (fs, Raised e)
      | Returned d => (fs, Returned (backup, d))
      end
  end.

(** [make_backup], with the reading [now] of [time()]. *)
Definition make_backup (now : Q) (filename backup_dir : string) (fs : FS)
  : FS * outcome (string * string) :=
  match mkdir backup_dir fs with
  | (fs, Some errno) =>
      if bool_decide (errno <> EEXIST) then (fs, Raised (OSError errno))
      else make_backup_copy now filename backup_dir fs
  | (fs, None) => make_backup_copy now filename backup_dir fs
  end.

(** *** The ring library ([swift.common.ring.Ring])

    What [is_valid_ring] asks of it: loading a ring from a file, the list
    of devices (with holes), the nodes of a partition.  Each may raise. *)
Definition device : Type := gmap string string.

Class RingLib : Type := {
  ring : Type;
  Ring : string -> FS -> outcome ring;
  devs : ring -> outcome (list (option device));
  get_part_nodes : ring -> Z -> outcome (list device)
}.

Section ring_validation.
Context `{RingLib}.

Definition is_valid_ring (ring_file : string) (fs : FS) : bool :=
  match Ring ring_file fs with
  | Raised _ => false
  | Returned r =>
      match devs r with
      | Raised _ => false
      | Returned ds =>
          if (Z.of_nat (length ds) <? 1) then false
          else match get_part_nodes r 1 with
               | Raised _ => false
               | Returned nodes =>
                   if bool_decide (nodes = []) then false else true
               end
      end
  end.

End ring_validation.

(** *** EmailNotify *)

Record EmailNotify : Type := mkEmailNotify {
  conf : gmap string string;
  smtp_host : string;
  smtp_port : Z;
  from_addr : string;
  recipients : list string
}.

(** [EmailNotify.__init__(conf, logger)]; the logger is only stored. *)
Definition EmailNotify_init (conf : gmap string string) : outcome EmailNotify :=
  let smtp_host := default "localhost" (conf !! "smtplib_host") in
  match py_int (default "25" (conf !! "smtplib_port")) with
  | None => Raised ValueError
  | Some smtp_port =>
      let from_addr := default "ringmaster@localhost" (conf !! "smtplib_from_addr") in
      match conf !! "smtplib_recipients" with
      | None => Raised AttributeError
      | Some v =>
          let recipients := strip <$> split_on "," v in
          if bool_decide (recipients = []) then
            Raised (Exception "No smtplib recipients in conf.")
          else Returned (mkEmailNotify conf smtp_host smtp_port from_addr recipients)
      end
  end.

(** ** The spec's reading of the digest

    The digest of a file, taken at once over its whole content. *)
Definition one_shot_md5sum (filename : string) (fs : FS) : outcome string :=
  match open_rb fs filename with
  | Raised e => Raised e
  | Returned B => Returned (md5_hex B)
  end.

(** ** srm/ringminion.py

    The ring minion is not among the sources; its tests are.  The two
    methods the tests exercise are modelled from the design document. *)

Section ring_minion.
Context `{RingLib}.

(** Modelled from the spec: [RingMinion._validate_ring] of
    [srm/ringminion.py], which is not among the sources.  The digest check
    against the expected digest comes first, then the structural check;
    each failure raises its own condition, with the messages the tests
    expect. *)
Definition _validate_ring (ring_file expected_md5 : string) (fs : FS) : outcome unit :=
  match md5matches ring_file expected_md5 fs with
  | Raised e => Raised e
  | Returned false => Raised (Exception "md5 missmatch")
  | Returned true =>
      if is_valid_ring ring_file fs then Returned tt
      else Raised (Exception "Invalid ring")
  end.

End ring_minion.

(** What [urlopen] did: a response, or one of the exceptions the minion
    tells apart. *)
Inductive urlopen_result : Type :=
| Response (code : Z) (body : outcome (list byte)) (digest : option string)
| RaisesHTTPError (code : Z)
| RaisesURLError
| RaisesOther.

Inductive level : Type := DEBUG | WARNING | ERROR.

(** What [fetch_ring] returns: [None], [False], or the body and the digest
    the server sent. *)
Inductive fetch_value : Type :=
| PyNone
| PyFalse
| Received (body : list byte) (serverDigest : option string).

(** Modelled from the spec: [RingMinion.fetch_ring] of [srm/ringminion.py],
    which is not among the sources.  The function is given what [urlopen]
    did and classifies it, following the table of the response status
    handling contract; it returns the value and the log records. *)
Definition fetch_ring (r : urlopen_result) : outcome fetch_value * list (level * string) :=
  match r with
  | Response code body digest =>
      if code =? 304 then
        (Returned PyNone, [(DEBUG, "Ring-master reports ring unchanged.")])
      else if code =? 200 then
        match body with
        | Returned bytes => (Returned (Received bytes digest), [])
        | Raised _ => (Returned PyFalse, [(ERROR, "Error retrieving or checking on ring")])
        end
      else (Returned PyFalse, [(WARNING, "Received non 200 status code")])
  | RaisesHTTPError code =>
      if code =? 304 then
        (Returned PyNone, [(DEBUG, "Ring-master reports ring unchanged.")])
      else (Returned PyFalse, [(ERROR, "Error communicating with ring-master")])
  | RaisesURLError =>
      (Returned PyFalse, [(ERROR, "Error communicating with ring-master")])
  | RaisesOther =>
      (Returned PyFalse, [(ERROR, "Error retrieving or checking on ring")])
  end.

(** ** srm/utils.py, continued *)

(** *** EmailNotify.send_message *)

(** [str(x)] of a list of strings, as ['%s' % x] renders it: the items in
    brackets, each as Python displays a string.  The display picks the
    quote (double only when the string holds a single quote and no double
    one) and escapes the quote, the backslash and the control characters;
    bytes above 127 are left as they are. *)
Definition squote : ascii := ascii_of_nat 39.
Definition dquote : ascii := ascii_of_nat 34.
Definition backslash : ascii := ascii_of_nat 92.

Definition repr_char (q a : ascii) : string :=
  let n := nat_of_ascii a in
  if Ascii.eqb a q || Ascii.eqb a backslash then String backslash (String a "")
  else if (n =? 9)%nat then String backslash "t"
  else if (n =? 10)%nat then String backslash "n"
  else if (n =? 13)%nat then String backslash "r"
  else if ((n <? 32) || (n =? 127))%nat then
    String backslash (String "x" (MD5.hex [Z.of_nat n]))
  else String a "".

Fixpoint repr_chars (q : ascii) (s : string) : string :=
  match s with
  | EmptyString => EmptyString
  | String a s' => repr_char q a +:+ repr_chars q s'
  end.

Definition py_repr (s : string) : string :=
  let q := if contains_char squote s && negb (contains_char dquote s)
           then dquote else squote in
  String q (repr_chars q s) +:+ String q "".

Fixpoint join_with (sep : string) (l : list string) : string :=
  match l with
  | [] => ""
  | [x] => x
  | x :: l' => x +:+ sep +:+ join_with sep l'
  end.

Definition str_of_list (l : list string) : string :=
  "[" +:+ join_with ", " (py_repr <$> l) +:+ "]".

Definition newline : string := String (ascii_of_nat 10) "".

(** The message template of [send_message], filled in. *)
Definition format_message (from_addr : string) (recipients : list string)
    (subject body : string) : string :=
  "From: " +:+ from_addr +:+ newline +:+
  "        To: " +:+ str_of_list recipients +:+ newline +:+
  "        Subject: " +:+ subject +:+ newline +:+
  newline +:+
  "        " +:+ body +:+ newline +:+
  "        ".

(** The calls made on [smtplib.SMTP]: the constructor, which connects, and
    the three methods. *)
Inductive smtp_call : Type :=
| SMTP_connect (host : string) (port : Z)
| SMTP_ehlo
| SMTP_sendmail (from_addr : string) (to_addrs : list string) (msg : string)
| SMTP_close.

(** The mail server: what the latest call of a conversation meets. *)
Definition smtp_server : Type := list smtp_call -> outcome unit.

(** [send_message]: the value returned, the calls made and the records
    logged. *)
Definition send_message (self : EmailNotify) (subject body : string)
    (server : smtp_server)
  : outcome bool * list smtp_call * list (level * string) :=
  let message := format_message (from_addr self) (recipients self) subject body in
  let failed (calls : list smtp_call) :=
    (Returned false, calls, [(ERROR, "Email notification error.")]) in
  let calls := [SMTP_connect (smtp_host self) (smtp_port self)] in
  match server calls with
  | Raised _ => failed calls
  | Returned _ =>
      let calls := calls ++ [SMTP_ehlo] in
      match server calls with
      | Raised _ => failed calls
      | Returned _ =>
          let calls :=
            calls ++ [SMTP_sendmail (from_addr self) (recipients self) message] in
          match server calls with
          | Raised _ => failed calls
          | Returned _ =>
              let calls := calls ++ [SMTP_close] in
              match server calls with
              | Raised _ => failed calls
              | Returned _ => (Returned true, calls, [])
              end
          end
      end
  end.

(** The four calls of a conversation that goes through. *)
Definition smtp_conversation (self : EmailNotify) (subject body : string)
  : list smtp_call :=
  [SMTP_connect (smtp_host self) (smtp_port self);
   SMTP_ehlo;
   SMTP_sendmail (from_addr self) (recipients self)
     (format_message (from_addr self) (recipients self) subject body);
   SMTP_close].

(** *** get_file_logger

    The [logging] module keeps one logger per name; a handler is an object
    of its own, told apart by [handler_id].  A new logger has level
    [NOTSET]; the empty name stands for the root logger. *)
Definition NOTSET : Z := 0.
Definition INFO : Z := 20.

Record handler : Type := mkHandler {
  handler_id : nat;
  baseFilename : list string;
  when : string;
  backupCount : Z;
  formatter : option string
}.

Record logger : Type := mkLogger {
  handlers : list handler;
  logger_level : Z
}.

Record logging : Type := mkLogging {
  loggers : gmap string logger;
  handlers_made : nat
}.

Definition logger_key (name : string) : string :=
  if bool_decide (name = "") then "root" else name.

(** The logger a name stands for; it is made on first use. *)
Definition logger_of (lg : logging) (name : string) : logger :=
  default (mkLogger [] NOTSET) (loggers lg !! logger_key name).

Definition getLogger (name : string) (lg : logging) : logging :=
  mkLogging (<[logger_key name := logger_of lg name]> (loggers lg)) (handlers_made lg).

(** [open(p, 'a')], as a file handler opens its file: made empty when it is
    not there, left as it is when it is. *)
Definition open_a (p : string) (fs : FS) : FS * outcome unit :=
  match p with
  | EmptyString => (fs, Raised (OSError ENOENT))
  | _ =>
      let r := resolve fs p in
      match stat fs r with
      | Some Dir => (fs, Raised (OSError EISDIR))
      | Some (File _) =>
          if endswith_char "/" p then (fs, Raised (OSError ENOTDIR))
          else (fs, Returned tt)
      | None =>
          match stat fs (removelast r) with
          | Some Dir =>
              if endswith_char "/" p then (fs, Raised (OSError EISDIR))
              else (mkFS (<[r := File []]> (entries fs)) (cwd fs), Returned tt)
          | Some (File _) => (fs, Raised (OSError ENOTDIR))
          | None => (fs, Raised (OSError ENOENT))
          end
      end
  end.

(** [get_file_logger(name, log_path, level, count, fmt)]: the state of the
    file system and of [logging] it leaves, and the name of the logger it
    returns. *)
Definition get_file_logger (name log_path : string) (level count : Z)
    (fmt : option string) (w : FS * logging) : (FS * logging) * outcome string :=
  let '(fs, lg) := w in
  let lg := getLogger name lg in
  match open_a log_path fs with
  | (fs', Raised e) => ((fs', lg), Raised e)
  | (fs', Returned _) =>
      let handler :=
        mkHandler (handlers_made lg) (resolve fs log_path) "MIDNIGHT" count
                  (Some "%(asctime)s - %(name)s: %(message)s") in
      let l := logger_of lg name in
      let l := mkLogger (handlers l ++ [handler]) (logger_level l) in
      let l := mkLogger (handlers l) INFO in
      ((fs', mkLogging (<[logger_key name := l]> (loggers lg)) (S (handlers_made lg))),
       Returned (logger_key name))
  end.

(** ** Predicates of the properties *)

Fixpoint count_char (c : ascii) (s : string) : nat :=
  match s with
  | EmptyString => 0
  | String a s' => (if Ascii.eqb a c then 1 else 0) + count_char c s'
  end.

(** The state after [n] calls of [get_file_logger] with the same
    arguments. *)
Definition get_file_logger_times (n : nat) (name log_path : string) (level count : Z)
    (fmt : option string) (w : FS * logging) : FS * logging :=
  Nat.iter n (fun w => (get_file_logger name log_path level count fmt w).1) w.

(** A character of a hex digest: a digit or one of [a] to [f]. *)
Definition is_lower_hex (a : ascii) : bool :=
  let n := nat_of_ascii a in
  ((48 <=? n) && (n <=? 57) || (97 <=? n) && (n <=? 102))%nat.

Fixpoint all_chars (P : ascii -> bool) (s : string) : bool :=
  match s with
  | EmptyString => true
  | String a s' => P a && all_chars P s'
  end.

(** The shape of an md5 hex digest: 32 characters, each a lower-case hex
    digit. *)
Definition is_md5_hex (s : string) : bool :=
  (String.length s =? 32)%nat && all_chars is_lower_hex s.

(** ** A sample node

    [/etc/swift] holds the object ring; the backups go to
    [/etc/swift/backups]. *)
Definition ring_v1 : list byte := list_byte_of_string "ring-v1".
Definition ring_v2 : list byte := list_byte_of_string "ring-v2".

Definition swift_fs : FS :=
  mkFS (list_to_map [(["etc"], Dir); (["etc"; "swift"], Dir);
                     (["etc"; "swift"; "object.ring.gz"], File ring_v1)]) [].

Definition object_ring : string := "/etc/swift/object.ring.gz".
Definition backups : string := "/etc/swift/backups".

(** Two clock readings within one second, and one a second later. *)
Definition t_early : Q := Qmake 6800000001 4.
Definition t_late : Q := Qmake 6800000003 4.
Definition t_next : Q := Qmake 6800000005 4.

(** The state after a first backup, then after the ring was replaced. *)
Definition fs_backed_up : FS := (make_backup t_early object_ring backups swift_fs).1.
Definition fs_new_ring : FS := (write_wb object_ring ring_v2 fs_backed_up).1.

(** A stand-in for the ring format, for the examples: a ring file starts
    with the byte [R], and every byte after it stands for one device, which
    is also a node of every partition. *)
Definition sample_ring_lib : RingLib := {|
  ring := list byte;
  Ring ring_file fs :=
    match open_rb fs ring_file with
    | Raised e => Raised e
    | Returned [] => Raised (LibraryError "EOFError")
    | Returned (b :: rest) =>
        if Byte.eqb b "R"%byte then Returned rest
        else Raised (LibraryError "UnpicklingError")
    end;
  devs r := Returned ((fun _ => Some ∅) <$> r);
  get_part_nodes r part := Returned ((fun _ => ∅) <$> r)
|}.

(** The node of the tests: a ring of four devices and a file that is no
    ring. *)
Definition test_fs : FS :=
  mkFS (list_to_map
          [(["tmp"], Dir);
           (["tmp"; "object.ring.gz"], File (list_byte_of_string "R0123"));
           (["tmp"; "empty.ring.gz"], File (list_byte_of_string "R"));
           (["tmp"; "test.ring.gz"], File (list_byte_of_string "whatisthis."))]) [].

(** A configuration with no recipients and a port that is not a number. *)
Definition conf_bad_port : gmap string string := {[ "smtplib_port" := "abc" ]}.

(** A notifier with two recipients, a mail server that takes everything and
    one that refuses the recipients. *)
Definition sample_notifier : EmailNotify :=
  mkEmailNotify ∅ "localhost" 25 "ringmaster@localhost"
                ["ops@example.org"; "root@localhost"].

Definition server_accepts : smtp_server := fun _ => Returned tt.

Definition server_refuses_recipients : smtp_server := fun calls =>
  match List.last calls SMTP_close with
  | SMTP_sendmail _ _ _ => Raised (LibraryError "SMTPRecipientsRefused")
  | _ => Returned tt
  end.

(** [logging] before any logger was asked for, on a node with a log
    directory. *)
Definition fresh_logging : logging := mkLogging ∅ 0.

Definition log_fs : FS :=
  mkFS (list_to_map [(["var"], Dir); (["var"; "log"], Dir)]) [].

(** * The embedding at work *)

Example md5_empty : md5_hex [] = "d41d8cd98f00b204e9800998ecf8427e".
Proof. vm_compute. reflexivity. Qed.

Example md5_abc :
  md5_hex (list_byte_of_string "abc") = "900150983cd24fb0d6963f7d28e17f72".
Proof. vm_compute. reflexivity. Qed.

Example md5_whatisthis :
  md5_hex (list_byte_of_string "whatisthis.") = "0cea02297069d9e8502d2b716bc63a16".
Proof. vm_compute. reflexivity. Qed.

Example md5_two_blocks :
  md5_hex (repeat "x"%byte 64) = "c1bb4f81d892b2d57947682aeb252456".
Proof. vm_compute. reflexivity. Qed.

Example md5_56 :
  md5_hex (repeat "x"%byte 56) = "668a72d5ba17f08e62dabcafad6db14b".
Proof. vm_compute. reflexivity. Qed.

Example split_empty : split_on "," "" = [""].
Proof. reflexivity. Qed.
Example split_two : split_on "," "ops@example.org, root@localhost" =
  ["ops@example.org"; " root@localhost"].
Proof. reflexivity. Qed.
Example split_only_commas : split_on "," ",," = [""; ""; ""].
Proof. reflexivity. Qed.
Example strip_ex : strip "  a b	" = "a b".
Proof. reflexivity. Qed.
Example fmt_d_ex : fmt_d 1700000000 = "1700000000" /\ fmt_d (-3) = "-3" /\ fmt_d 0 = "0".
Proof. repeat split; reflexivity. Qed.

Example py_int_ex :
  py_int "25" = Some 25 /\ py_int " -1_000 " = Some (-1000) /\
  py_int "abc" = None /\ py_int "" = None /\ py_int "1__0" = None /\ py_int "2_" = None.
Proof. repeat split; reflexivity. Qed.

Example basename_ex :
  basename "/etc/swift/object.ring.gz" = "object.ring.gz" /\
  basename "object.ring.gz" = "object.ring.gz" /\
  basename "/etc/swift/" = "".
Proof. repeat split; reflexivity. Qed.

Example pathjoin_ex :
  pathjoin "/etc/swift/backups" "17.object.ring.gz" = "/etc/swift/backups/17.object.ring.gz" /\
  pathjoin "/etc/swift/backups/" "17.object.ring.gz" = "/etc/swift/backups/17.object.ring.gz" /\
  pathjoin "" "17.object.ring.gz" = "17.object.ring.gz".
Proof. repeat split; reflexivity. Qed.

Example int_of_time_ex :
  int_of_time t_early = 1700000000 /\ int_of_time t_late = 1700000000 /\
  int_of_time t_next = 1700000001 /\ int_of_time (Qmake (-3) 2) = -1.
Proof. repeat split; reflexivity. Qed.

Example make_backup_ex :
  (make_backup t_early object_ring backups swift_fs).2 =
  Returned ("/etc/swift/backups/1700000000.object.ring.gz",
            "8094edfaa77c39def8e8477bc0136acc").
Proof. vm_compute. reflexivity. Qed.

(** [mkdir] is not [makedirs]: a missing parent is an error of its own. *)
Example make_backup_missing_parent :
  (make_backup t_early object_ring "/srv/swift/backups" swift_fs).2 =
  Raised (OSError ENOENT).
Proof. vm_compute. reflexivity. Qed.

Example is_valid_ring_ex :
  @is_valid_ring sample_ring_lib "/tmp/object.ring.gz" test_fs = true /\
  @is_valid_ring sample_ring_lib "/tmp/test.ring.gz" test_fs = false /\
  @is_valid_ring sample_ring_lib "/tmp/empty.ring.gz" test_fs = false /\
  @is_valid_ring sample_ring_lib "/tmp/missing.ring.gz" test_fs = false.
Proof. repeat split; vm_compute; reflexivity. Qed.

(** The cases of the test suite. *)
Example fetch_ring_203 :
  fetch_ring (Response 203 (Returned (list_byte_of_string "CRAP")) None) =
  (Returned PyFalse, [(WARNING, "Received non 200 status code")]).
Proof. reflexivity. Qed.

Example fetch_ring_401 :
  fetch_ring (RaisesHTTPError 401) =
  (Returned PyFalse, [(ERROR, "Error communicating with ring-master")]).
Proof. reflexivity. Qed.

Example EmailNotify_init_ex :
  recipients <$> match EmailNotify_init {[ "smtplib_recipients" := "ops@example.org, root@localhost" ]} with
                 | Returned obj => Some obj
                 | Raised _ => None
                 end = Some ["ops@example.org"; "root@localhost"] /\
  EmailNotify_init ∅ = Raised AttributeError.
Proof. split; vm_compute; reflexivity. Qed.

(** An empty setting gives one empty recipient. *)
Example EmailNotify_init_empty :
  recipients <$> match EmailNotify_init {[ "smtplib_recipients" := "" ]} with
                 | Returned obj => Some obj
                 | Raised _ => None
                 end = Some [""].
Proof. vm_compute. reflexivity. Qed.

(** * Properties *)

(** ** The digest loop *)

Lemma read_app n rest : (read n rest).1 ++ (read n rest).2 = rest.
Proof.
  unfold read. destruct (n <? 0); simpl.
  - apply app_nil_r.
  - apply take_drop.
Qed.

(** A read of a chunk size other than zero comes back empty only at the
    end of the file. *)
Lemma read_first_block n tfile :
  n <> 0 -> (read n tfile).1 = [] -> (read n tfile).2 = [].
Proof.
  intros Hn. unfold read. destruct (n <? 0) eqn:E; simpl; [done |].
  destruct tfile as [| x t]; [by rewrite drop_nil |].
  destruct (Z.to_nat n) eqn:E'; [lia | done].
Qed.

(** With a chunk size other than zero an empty block means the end of the
    file, and the loop has then hashed all of it. *)
Lemma md5_loop_all chunk_size md5sum block rest :
  chunk_size <> 0 ->
  (block = [] -> rest = []) ->
  md5_loop chunk_size md5sum block rest = MD5.update md5sum (block ++ rest).
Proof.
  intros Hn. funelim (md5_loop chunk_size md5sum block rest); intros Hend.
  - rewrite (Hend eq_refl). unfold MD5.update. simp md5_loop. by rewrite app_nil_r.
  - simp md5_loop.
    match goal with
    | IH : _ -> _ -> md5_loop _ _ _ _ = MD5.update _ _ |- _ => rewrite IH; [| done |]
    end.
    + unfold MD5.update. rewrite read_app. by rewrite <- app_assoc.
    + by apply read_first_block.
Qed.

Lemma get_md5sum_one_shot filename chunk_size fs :
  chunk_size <> 0 ->
  get_md5sum filename chunk_size fs = one_shot_md5sum filename fs.
Proof.
  intros Hn. unfold get_md5sum, one_shot_md5sum.
  destruct (open_rb fs filename) as [B | e]; [| done].
  destruct (read chunk_size B) as [block rest] eqn:E.
  pose proof (read_app chunk_size B) as Happ.
  pose proof (read_first_block chunk_size B Hn) as Hfirst.
  rewrite E in Happ, Hfirst. simpl in *.
  rewrite md5_loop_all by done. unfold md5_hex. by rewrite Happ.
Qed.


(** C10: with [chunk_size] zero the first read returns an empty block, the
    loop body never runs, and [get_md5sum] returns the digest of the empty
    byte string whatever the file holds. *)
Theorem get_md5sum_zero_chunk filename fs B :
  open_rb fs filename = Returned B ->
  (read 0 B).1 = [] /\
  md5_loop 0 MD5.new (read 0 B).1 (read 0 B).2 = MD5.new /\
  get_md5sum filename 0 fs = Returned (md5_hex []) /\
  get_md5sum filename 0 fs = Returned "d41d8cd98f00b204e9800998ecf8427e".
Proof.
  intros HB.
  assert (Hread : read 0 B = ([], B)).
  { unfold read. change (0 <? 0) with false. change (Z.to_nat 0) with 0%nat.
    by rewrite drop_0. }
  assert (Hget : get_md5sum filename 0 fs = Returned (md5_hex [])).
  { unfold get_md5sum. rewrite HB, Hread. simp md5_loop. reflexivity. }
  rewrite Hread. cbn [fst snd]. split; [reflexivity |]. split; [| split].
  - by simp md5_loop.
  - exact Hget.
  - rewrite Hget, md5_empty. reflexivity.
Qed.

(** C1: for a file that holds [B], [md5matches] answers [True] for the md5
    hex digest of [B] and [False] for every other string. *)
Theorem md5matches_iff_digest target_file fs B :
  open_rb fs target_file = Returned B ->
  md5matches target_file (md5_hex B) fs = Returned true /\
  (forall D', D' <> md5_hex B -> md5matches target_file D' fs = Returned false).
Proof.
  intros HB. unfold md5matches.
  rewrite get_md5sum_one_shot by done. unfold one_shot_md5sum. rewrite HB.
  split.
  - by rewrite bool_decide_eq_true_2.
  - intros D' HD. by rewrite bool_decide_eq_false_2.
Qed.

(** ** Strings and paths *)

#[local] Arguments Ascii.eqb : simpl never.

Lemma contains_char_app c a b :
  contains_char c (a +:+ b) = contains_char c a || contains_char c b.
Proof.
  induction a as [| x a IH]; [done |].
  simpl. rewrite IH. by rewrite orb_assoc.
Qed.

Lemma startswith_contains c s : startswith_char c s = true -> contains_char c s = true.
Proof. destruct s as [| a s]; [done |]. simpl. by intros ->. Qed.

Lemma split_on_nonempty c s : split_on c s <> [].
Proof.
  induction s as [| a s IH]; [done |].
  simpl. destruct (Ascii.eqb a c); [done |].
  by destruct (split_on c s).
Qed.

(** No piece of a split holds the separator. *)
Lemma split_on_pieces c s :
  Forall (fun w => contains_char c w = false) (split_on c s).
Proof.
  induction s as [| a s IH]; simpl.
  - by constructor.
  - destruct (Ascii.eqb a c) eqn:E.
    + by constructor.
    + destruct (split_on c s) as [| w ws]; inversion IH; subst;
        constructor; simpl; try rewrite E; done.
Qed.

Lemma split_on_whole c s : contains_char c s = false -> split_on c s = [s].
Proof.
  induction s as [| a s IH]; [done |].
  simpl. intros [Ha Hs]%orb_false_elim. rewrite Ha, (IH Hs). done.
Qed.

Lemma split_on_app c a b :
  split_on c (a +:+ String c b) = split_on c a ++ split_on c b.
Proof.
  induction a as [| x a IH]; simpl.
  - by rewrite Ascii.eqb_refl.
  - rewrite IH. destruct (Ascii.eqb x c); [done |].
    pose proof (split_on_nonempty c a).
    by destruct (split_on c a).
Qed.

Lemma endswith_char_inv c a :
  endswith_char c a = true -> exists a', a = a' +:+ String c "".
Proof.
  induction a as [| x a IH]; [done |].
  destruct a as [| y a].
  - simpl. intros ->%Ascii.eqb_eq. by exists "".
  - intros Hend. destruct (IH Hend) as [a' Ha']. exists (String x a').
    by rewrite Ha'.
Qed.

Lemma append_cons x (a b : string) : String x a +:+ b = String x (a +:+ b).
Proof. reflexivity. Qed.

Lemma append_assoc (a b c : string) : (a +:+ b) +:+ c = a +:+ (b +:+ c).
Proof. induction a as [| x a IH]; [done |]. by rewrite !append_cons, IH. Qed.

Lemma startswith_char_app c a b :
  a <> "" -> startswith_char c (a +:+ b) = startswith_char c a.
Proof. by destruct a. Qed.

Lemma basename_no_slash p : contains_char "/" (basename p) = false.
Proof.
  unfold basename. pose proof (split_on_pieces "/" p) as Hall.
  pose proof (split_on_nonempty "/" p) as Hne.
  induction Hall as [| w ws Hw Hws IH]; [done |].
  destruct ws as [| w' ws']; [done |]. by apply IH.
Qed.

Lemma fold_walk_snoc l c init :
  fold_left walk (l ++ [c]) init = walk (fold_left walk l init) c.
Proof. by rewrite fold_left_app. Qed.

(** Joining a slash-free name to a path goes one step from where the path
    leads. *)
Lemma resolve_pathjoin fs a b :
  contains_char "/" b = false ->
  resolve fs (pathjoin a b) = walk (resolve fs a) b.
Proof.
  intros Hb. unfold pathjoin.
  destruct (startswith_char "/" b) eqn:Hsw.
  { apply startswith_contains in Hsw. congruence. }
  destruct (bool_decide (a = "")) eqn:Ha; simpl.
  { apply bool_decide_eq_true in Ha. subst a. unfold resolve.
    change ("" +:+ b) with b. by rewrite Hsw, split_on_whole. }
  apply bool_decide_eq_false in Ha.
  destruct (endswith_char "/" a) eqn:Hend.
  - destruct (endswith_char_inv _ _ Hend) as [a' ->].
    unfold resolve. rewrite !(startswith_char_app "/" (a' +:+ "/")) by (by destruct a').
    rewrite append_assoc. change ("/" +:+ b) with (String "/" b).
    rewrite !split_on_app, (split_on_whole _ b Hb).
    change (split_on "/" "") with [""].
    rewrite !fold_walk_snoc. done.
  - unfold resolve. rewrite startswith_char_app by done.
    change ("/" +:+ b) with (String "/" b).
    rewrite split_on_app, (split_on_whole _ b Hb), fold_walk_snoc. done.
Qed.

(** *** Decimal numerals *)

Lemma string_of_uint_chars c d :
  digit_of c = None ->
  contains_char c (DecimalString.NilEmpty.string_of_uint d) = false.
Proof.
  intros Hc. induction d as [| d IH | d IH | d IH | d IH | d IH | d IH | d IH | d IH | d IH | d IH];
    simpl; [done | ..]; rewrite IH, orb_false_r;
    match goal with
    | |- Ascii.eqb ?x c = false =>
        destruct (Ascii.eqb_spec x c) as [<- |]; [discriminate Hc | done]
    end.
Qed.

Lemma fmt_d_chars c z :
  digit_of c = None -> c <> "-"%char -> contains_char c (fmt_d z) = false.
Proof.
  intros Hc Hminus. unfold fmt_d, DecimalString.NilEmpty.string_of_int.
  destruct (Z.to_int z) as [d | d]; simpl.
  - by apply string_of_uint_chars.
  - rewrite string_of_uint_chars by done.
    destruct (Ascii.eqb_spec "-" c) as [<- |]; done.
Qed.

Lemma fmt_d_nonempty z : fmt_d z <> "".
Proof.
  unfold fmt_d. destruct z as [| p | p]; simpl; [done | | done].
  pose proof (DecimalPos.Unsigned.to_uint_nonnil p) as Hnil.
  by destruct (Pos.to_uint p).
Qed.

Lemma fmt_d_inj a b : fmt_d a = fmt_d b -> a = b.
Proof.
  unfold fmt_d. intros Heq. apply DecimalZ.to_int_inj.
  pose proof (DecimalString.NilEmpty.isi (Z.to_int a)) as Ha.
  pose proof (DecimalString.NilEmpty.isi (Z.to_int b)) as Hb.
  rewrite Heq in Ha. congruence.
Qed.

(** Cutting at the first occurrence of a character is unambiguous. *)
Lemma cut_at_first c s1 s2 r1 r2 :
  contains_char c s1 = false -> contains_char c s2 = false ->
  s1 +:+ String c r1 = s2 +:+ String c r2 -> s1 = s2 /\ r1 = r2.
Proof.
  revert s2. induction s1 as [| x s1 IH]; intros [| y s2] H1 H2 Heq.
  - by inversion Heq.
  - rewrite append_cons in Heq. inversion Heq; subst.
    simpl in H2. by rewrite Ascii.eqb_refl in H2.
  - rewrite append_cons in Heq. inversion Heq; subst.
    simpl in H1. by rewrite Ascii.eqb_refl in H1.
  - rewrite !append_cons in Heq. inversion Heq; subst.
    simpl in H1, H2. apply orb_false_elim in H1 as [_ H1].
    apply orb_false_elim in H2 as [_ H2].
    destruct (IH s2 H1 H2) as [-> ->]; done.
Qed.

(** *** Backup names *)

Lemma backup_name_no_slash now filename :
  contains_char "/" (backup_name now filename) = false.
Proof.
  unfold backup_name. rewrite !contains_char_app, basename_no_slash.
  by rewrite fmt_d_chars.
Qed.

Lemma backup_name_inj now1 now2 f1 f2 :
  backup_name now1 f1 = backup_name now2 f2 <->
  int_of_time now1 = int_of_time now2 /\ basename f1 = basename f2.
Proof.
  unfold backup_name. split.
  - change ("." +:+ basename f1) with (String "." (basename f1)).
    change ("." +:+ basename f2) with (String "." (basename f2)).
    intros Heq. apply cut_at_first in Heq as [Ht Hb]; try by apply fmt_d_chars.
    split; [by apply fmt_d_inj | done].
  - by intros [-> ->].
Qed.

(** A backup name is an ordinary path component. *)
Lemma walk_backup_name acc now filename :
  walk acc (backup_name now filename) = acc ++ [backup_name now filename].
Proof.
  unfold walk, backup_name.
  pose proof (fmt_d_nonempty (int_of_time now)) as Hne.
  pose proof (fmt_d_chars "." (int_of_time now) eq_refl) as Hdot.
  destruct (fmt_d (int_of_time now)) as [| x s]; [done |].
  rewrite append_cons.
  assert (x <> "."%char) as Hx.
  { intros ->. by specialize (Hdot ltac:(done)). }
  rewrite !bool_decide_eq_false_2; [done | ..]; congruence.
Qed.

Lemma resolve_backup_path fs now filename backup_dir :
  resolve fs (backup_path now filename backup_dir) =
  resolve fs backup_dir ++ [backup_name now filename].
Proof.
  unfold backup_path.
  rewrite resolve_pathjoin by apply backup_name_no_slash.
  apply walk_backup_name.
Qed.

(** ** The file system calls *)

Lemma resolve_cwd fs fs' p : cwd fs' = cwd fs -> resolve fs' p = resolve fs p.
Proof. unfold resolve. by intros ->. Qed.

Lemma stat_insert fs r n q :
  r <> [] ->
  stat (mkFS (<[r := n]> (entries fs)) (cwd fs)) q =
  if decide (r = q) then Some n else stat fs q.
Proof.
  intros Hr. destruct q as [| x q]; simpl.
  - by rewrite decide_False.
  - by rewrite lookup_insert.
Qed.

Lemma stat_root_inv fs r : stat fs r <> Some Dir -> r <> [].
Proof. by destruct r. Qed.

(** Case analysis of a file system call, down to the states it can leave. *)
Ltac fs_cases :=
  repeat match goal with
  | |- context [match ?p with EmptyString => _ | String _ _ => _ end] =>
      lazymatch p with
      | String _ _ => fail
      | _ => destruct p eqn:?
      end
  | |- context [match stat ?fs ?r with _ => _ end] => destruct (stat fs r) eqn:?
  | |- context [match ?n with File _ => _ | Dir => _ end] => destruct n eqn:?
  | |- context [if endswith_char ?c ?p then _ else _] =>
      destruct (endswith_char c p) eqn:?
  end.

Lemma write_wb_cwd p content fs : cwd (write_wb p content fs).1 = cwd fs.
Proof. unfold write_wb. fs_cases; done. Qed.

(** Writing changes the entry it is aimed at and nothing else. *)
Lemma write_wb_stat p content fs q :
  q <> resolve fs p -> stat (write_wb p content fs).1 q = stat fs q.
Proof.
  intros Hq. unfold write_wb. fs_cases; try done; simpl fst;
    (rewrite stat_insert; [by rewrite decide_False | apply (stat_root_inv fs); congruence]).
Qed.

Lemma write_wb_dir p content fs q :
  stat fs q = Some Dir -> stat (write_wb p content fs).1 q = Some Dir.
Proof.
  intros Hq. destruct (decide (q = resolve fs p)) as [-> | Hne].
  - unfold write_wb. fs_cases; simpl fst; congruence.
  - by rewrite write_wb_stat.
Qed.

Lemma write_wb_ok p content fs fs' :
  write_wb p content fs = (fs', Returned tt) ->
  fs' = (write_wb p content fs).1 /\
  stat fs' (resolve fs p) = Some (File content) /\
  endswith_char "/" p = false /\ p <> "".
Proof.
  intros Hw. split; [by rewrite Hw |]. revert Hw.
  unfold write_wb. fs_cases; intros [= <-]; try done;
    (rewrite stat_insert; [by rewrite decide_True | apply (stat_root_inv fs); congruence]).
Qed.

Lemma mkdir_cwd p fs : cwd (mkdir p fs).1 = cwd fs.
Proof. unfold mkdir. fs_cases; done. Qed.

(** [mkdir] only ever adds an entry where there was none. *)
Lemma mkdir_keeps p fs q n :
  stat fs q = Some n -> stat (mkdir p fs).1 q = Some n.
Proof.
  intros Hq. unfold mkdir. fs_cases; try done; simpl fst.
  rewrite stat_insert by (apply (stat_root_inv fs); congruence).
  destruct (decide (resolve fs (String a s) = q)); congruence.
Qed.

Lemma mkdir_stat p fs q :
  q <> resolve fs p -> stat (mkdir p fs).1 q = stat fs q.
Proof.
  intros Hq. unfold mkdir. fs_cases; try done; simpl fst.
  rewrite stat_insert; [by rewrite decide_False | apply (stat_root_inv fs); congruence].
Qed.

(** What [mkdir] answers, by what is at the path. *)
Lemma mkdir_spec p fs :
  match mkdir p fs with
  | (fs', None) =>
      p <> "" /\ stat fs (resolve fs p) = None /\
      stat fs (removelast (resolve fs p)) = Some Dir /\
      stat fs' (resolve fs p) = Some Dir
  | (fs', Some errno) =>
      fs' = fs /\
      (errno = EEXIST <-> p <> "" /\ is_Some (stat fs (resolve fs p)))
  end.
Proof.
  unfold mkdir. fs_cases; (split; [done |]).
  - split; [discriminate | by intros [? _]].
  - split; [intros _; split; [done | by eexists] | done].
  - split; [discriminate | by intros [_ [? ?]]].
  - split; [done |]. split; [done |].
    rewrite stat_insert; [by rewrite decide_True | apply (stat_root_inv fs); congruence].
  - split; [discriminate | by intros [_ [? ?]]].
Qed.

Lemma open_rb_ext fs fs' p :
  cwd fs' = cwd fs ->
  stat fs' (resolve fs p) = stat fs (resolve fs p) ->
  open_rb fs' p = open_rb fs p.
Proof.
  intros Hcwd Hstat. unfold open_rb.
  by rewrite (resolve_cwd fs fs') , Hstat.
Qed.

Lemma copy_cwd src dst fs : cwd (copy src dst fs).1 = cwd fs.
Proof.
  unfold copy. case_bool_decide; [done |].
  destruct (open_rb fs src); [apply write_wb_cwd | done].
Qed.

(** [copy] writes at its target, or inside it when it is a directory. *)
Lemma copy_stat src dst fs q :
  q <> resolve fs dst ->
  q <> resolve fs (pathjoin dst (basename src)) ->
  stat (copy src dst fs).1 q = stat fs q.
Proof.
  intros Hq1 Hq2. unfold copy. case_bool_decide; [done |].
  destruct (open_rb fs src); [| done].
  apply write_wb_stat. by destruct (isdir fs dst).
Qed.

Lemma copy_dir src dst fs q :
  stat fs q = Some Dir -> stat (copy src dst fs).1 q = Some Dir.
Proof.
  intros Hq. unfold copy. case_bool_decide; [done |].
  destruct (open_rb fs src); [by apply write_wb_dir | done].
Qed.

Lemma copy_ok src dst fs fs' :
  copy src dst fs = (fs', Returned tt) ->
  exists content,
    open_rb fs src = Returned content /\
    write_wb (if isdir fs dst then pathjoin dst (basename src) else dst) content fs
      = (fs', Returned tt).
Proof.
  unfold copy. case_bool_decide; [done |].
  destruct (open_rb fs src) as [content | e]; [| done].
  intros Hw. by exists content.
Qed.

(** ** make_backup *)


Lemma make_backup_copy_fst now filename backup_dir fs :
  (make_backup_copy now filename backup_dir fs).1 =
  (copy filename (backup_path now filename backup_dir) fs).1.
Proof.
  unfold make_backup_copy.
  destruct (copy _ _ fs) as [fs1 [[] | e]]; [| done].
  by destruct (get_md5sum _ _ fs1).
Qed.

(** The state [make_backup] leaves: what [mkdir] left, then what the copy
    left, unless [mkdir] failed for good. *)
Lemma make_backup_fst now filename backup_dir fs :
  (make_backup now filename backup_dir fs).1 = (mkdir backup_dir fs).1 \/
  (make_backup now filename backup_dir fs).1 =
    (copy filename (backup_path now filename backup_dir) (mkdir backup_dir fs).1).1.
Proof.
  unfold make_backup. destruct (mkdir backup_dir fs) as [fs1 [errno |]]; simpl.
  - case_bool_decide; [by left | right; apply make_backup_copy_fst].
  - right. apply make_backup_copy_fst.
Qed.

Lemma make_backup_cwd now filename backup_dir fs :
  cwd (make_backup now filename backup_dir fs).1 = cwd fs.
Proof.
  destruct (make_backup_fst now filename backup_dir fs) as [-> | ->].
  - apply mkdir_cwd.
  - by rewrite copy_cwd, mkdir_cwd.
Qed.

(** A directory stays a directory. *)
Lemma make_backup_dir now filename backup_dir fs q :
  stat fs q = Some Dir -> stat (make_backup now filename backup_dir fs).1 q = Some Dir.
Proof.
  intros Hq. destruct (make_backup_fst now filename backup_dir fs) as [-> | ->].
  - by apply mkdir_keeps.
  - by apply copy_dir, mkdir_keeps.
Qed.

(** The three entries [make_backup] can touch: the backup directory, the
    backup, and an entry inside the backup when that is a directory. *)
Lemma make_backup_stat now filename backup_dir fs q :
  q <> resolve fs backup_dir ->
  q <> resolve fs backup_dir ++ [backup_name now filename] ->
  q <> walk (resolve fs backup_dir ++ [backup_name now filename]) (basename filename) ->
  stat (make_backup now filename backup_dir fs).1 q = stat fs q.
Proof.
  intros Hq1 Hq2 Hq3.
  pose proof (mkdir_cwd backup_dir fs) as Hcwd.
  destruct (make_backup_fst now filename backup_dir fs) as [-> | ->].
  - by apply mkdir_stat.
  - rewrite copy_stat.
    + by apply mkdir_stat.
    + by rewrite (resolve_cwd fs), resolve_backup_path.
    + rewrite (resolve_cwd fs) by done.
      rewrite resolve_pathjoin by apply basename_no_slash.
      by rewrite resolve_backup_path.
Qed.

Lemma mkdir_stat_file p fs q content :
  stat (mkdir p fs).1 q = Some (File content) -> stat fs q = Some (File content).
Proof.
  unfold mkdir. fs_cases; try done; simpl fst.
  rewrite stat_insert by (apply (stat_root_inv fs); congruence).
  by case_decide.
Qed.

Lemma mkdir_open_rb p fs filename B :
  open_rb (mkdir p fs).1 filename = Returned B -> open_rb fs filename = Returned B.
Proof.
  unfold open_rb. rewrite (resolve_cwd fs) by apply mkdir_cwd.
  destruct filename as [| a s]; [done |].
  destruct (stat (mkdir p fs).1 _) as [[content |] |] eqn:Hst; try done.
  by rewrite (mkdir_stat_file _ _ _ _ Hst).
Qed.

Lemma isdir_stat fs p : isdir fs p = true <-> p <> "" /\ stat fs (resolve fs p) = Some Dir.
Proof.
  unfold isdir. destruct p as [| a s]; [split; [done | by intros [? _]] |].
  destruct (stat fs _) as [[] |]; (split; [done | intros [_ ?]; congruence]).
Qed.

(** What a successful run of the copy and digest steps returns. *)
Lemma make_backup_copy_ok now filename backup_dir fs fs' backup d :
  make_backup_copy now filename backup_dir fs = (fs', Returned (backup, d)) ->
  backup = backup_path now filename backup_dir /\
  exists B, open_rb fs filename = Returned B /\
            open_rb fs' backup = Returned B /\ d = md5_hex B.
Proof.
  unfold make_backup_copy.
  destruct (copy _ _ fs) as [fs2 [[] | e]] eqn:Hcopy; [| done].
  destruct (get_md5sum _ _ fs2) as [d' | e] eqn:Hsum; [| done].
  intros Heq. injection Heq as <- <- <-. split; [done |].
  apply copy_ok in Hcopy as (content & Hsrc & Hw).
  exists content. split; [done |].
  rewrite get_md5sum_one_shot in Hsum by done. unfold one_shot_md5sum in Hsum.
  set (backup := backup_path now filename backup_dir) in *.
  assert (cwd fs2 = cwd fs) as Hcwd.
  { match type of Hw with
    | write_wb ?dst _ _ = _ => pose proof (write_wb_cwd dst content fs) as Hc
    end. by rewrite Hw in Hc. }
  destruct (isdir fs backup) eqn:Hdir.
  - apply isdir_stat in Hdir as [Hne Hst].
    assert (stat fs2 (resolve fs backup) = Some Dir) as Hst'.
    { match type of Hw with
      | write_wb ?dst _ _ = _ => pose proof (write_wb_dir dst content fs _ Hst) as Hd
      end. by rewrite Hw in Hd. }
    unfold open_rb in Hsum. rewrite (resolve_cwd fs), Hst' in Hsum by done.
    by destruct backup.
  - apply write_wb_ok in Hw as (_ & Hst & Hend & Hne).
    assert (open_rb fs2 backup = Returned content) as Hopen.
    { unfold open_rb. rewrite (resolve_cwd fs), Hst, Hend by done.
      by destruct backup. }
    rewrite Hopen in Hsum. by injection Hsum as <-.
Qed.

(** [make_backup] either stops at [mkdir] or runs the copy and digest steps
    in the state [mkdir] left. *)
Lemma make_backup_cases now filename backup_dir fs :
  (exists errno, mkdir backup_dir fs = (fs, Some errno) /\ errno <> EEXIST /\
     make_backup now filename backup_dir fs = (fs, Raised (OSError errno))) \/
  ((mkdir backup_dir fs).2 = None \/ (mkdir backup_dir fs).2 = Some EEXIST) /\
  make_backup now filename backup_dir fs =
    make_backup_copy now filename backup_dir (mkdir backup_dir fs).1.
Proof.
  unfold make_backup. pose proof (mkdir_spec backup_dir fs) as Hspec.
  destruct (mkdir backup_dir fs) as [fs1 [errno |]]; simpl.
  - destruct Hspec as [-> _]. case_bool_decide as Herr.
    + left. by exists errno.
    + right. split; [right | done]. f_equal.
      by destruct (decide (errno = EEXIST)).
  - right. by split; [left |].
Qed.

(** C7: a successful [make_backup] returns the path of the backup and the
    md5 hex digest of what the backup file holds once it is written; the
    backup holds what the source file held. *)
Theorem make_backup_returns_backup_digest now filename backup_dir fs fs' backup d :
  make_backup now filename backup_dir fs = (fs', Returned (backup, d)) ->
  backup = pathjoin backup_dir (fmt_d (int_of_time now) +:+ "." +:+ basename filename) /\
  exists B, open_rb fs' backup = Returned B /\ d = md5_hex B /\
            open_rb fs filename = Returned B.
Proof.
  intros Hmb.
  destruct (make_backup_cases now filename backup_dir fs)
    as [(errno & _ & _ & Hraise) | [_ Hrun]]; [congruence |].
  rewrite Hrun in Hmb. apply make_backup_copy_ok in Hmb as (-> & B & Hsrc & Hdst & ->).
  split; [done |]. exists B. repeat split; try done.
  by apply mkdir_open_rb in Hsrc.
Qed.


Lemma backup_path_inj now1 now2 f1 f2 backup_dir :
  backup_path now1 f1 backup_dir = backup_path now2 f2 backup_dir <->
  int_of_time now1 = int_of_time now2 /\ basename f1 = basename f2.
Proof.
  split.
  - intros Heq. apply backup_name_inj.
    pose proof (resolve_backup_path (mkFS ∅ []) now1 f1 backup_dir) as H1.
    pose proof (resolve_backup_path (mkFS ∅ []) now2 f2 backup_dir) as H2.
    rewrite Heq, H2 in H1. apply app_inv_head in H1. congruence.
  - intros [Ht Hb]. unfold backup_path, backup_name. by rewrite Ht, Hb.
Qed.

Lemma snoc_ne_walk_snoc (l : list string) n1 n2 b :
  n1 <> n2 -> l ++ [n1] <> walk (l ++ [n2]) b.
Proof.
  intros Hne. unfold walk.
  destruct (bool_decide (b = "") || bool_decide (b = ".")).
  - intros Heq%app_inv_head. congruence.
  - destruct (bool_decide (b = "..")).
    + rewrite removelast_last. intros Heq%(f_equal length).
      rewrite length_app in Heq. simpl in Heq. lia.
    + intros Heq%(f_equal length). rewrite !length_app in Heq. simpl in Heq. lia.
Qed.

(** C2 (amended): the backup is named by the clock reading cut to whole
    seconds, a dot and the base name of the file, inside the backup
    directory.  Two backups in one directory share a path exactly when
    their whole seconds and base names agree; a call whose second or whose
    base name differs from those of an earlier backup leaves that backup as
    it was. *)
Theorem make_backup_keeps_backups_of_other_seconds now1 now2 f1 f2 backup_dir fs :
  int_of_time now1 <> int_of_time now2 \/ basename f1 <> basename f2 ->
  (forall fs' backup d,
     make_backup now2 f2 backup_dir fs = (fs', Returned (backup, d)) ->
     backup = pathjoin backup_dir (fmt_d (int_of_time now2) +:+ "." +:+ basename f2)) /\
  (forall now f, backup_path now f backup_dir = backup_path now2 f2 backup_dir <->
     int_of_time now = int_of_time now2 /\ basename f = basename f2) /\
  backup_path now1 f1 backup_dir <> backup_path now2 f2 backup_dir /\
  open_rb (make_backup now2 f2 backup_dir fs).1 (backup_path now1 f1 backup_dir) =
    open_rb fs (backup_path now1 f1 backup_dir).
Proof.
  intros Hdiff.
  assert (backup_name now1 f1 <> backup_name now2 f2) as Hname.
  { intros [? ?]%backup_name_inj. by destruct Hdiff. }
  split; [| split; [| split]].
  - intros fs' backup d Hmb.
    destruct (make_backup_cases now2 f2 backup_dir fs)
      as [(errno & _ & _ & Hraise) | [_ Hrun]]; [congruence |].
    rewrite Hrun in Hmb. by apply make_backup_copy_ok in Hmb as [-> _].
  - intros now f. apply backup_path_inj.
  - intros [? ?]%backup_path_inj. by destruct Hdiff.
  - apply open_rb_ext; [apply make_backup_cwd |].
    rewrite resolve_backup_path. apply make_backup_stat.
    + intros Heq%(f_equal length). rewrite length_app in Heq. simpl in Heq. lia.
    + intros Heq%app_inv_head. congruence.
    + by apply snoc_ne_walk_snoc.
Qed.

(** C2, as stated, fails: two backups of one file taken within the same
    second get the same name, and the second replaces the first. *)
Lemma make_backup_same_second_overwrites :
  (t_early < t_late)%Q /\
  (make_backup t_early object_ring backups swift_fs).2 =
    Returned ("/etc/swift/backups/1700000000.object.ring.gz", md5_hex ring_v1) /\
  open_rb fs_new_ring "/etc/swift/backups/1700000000.object.ring.gz" = Returned ring_v1 /\
  (make_backup t_late object_ring backups fs_new_ring).2 =
    Returned ("/etc/swift/backups/1700000000.object.ring.gz", md5_hex ring_v2) /\
  open_rb (make_backup t_late object_ring backups fs_new_ring).1
    "/etc/swift/backups/1700000000.object.ring.gz" = Returned ring_v2 /\
  ring_v1 <> ring_v2.
Proof. repeat split; try (vm_compute; reflexivity). discriminate. Qed.

Lemma make_backup_keeps_backups_of_other_seconds_witness :
  open_rb (make_backup t_next object_ring backups fs_new_ring).1
    (backup_path t_early object_ring backups) = Returned ring_v1.
Proof.
  transitivity (open_rb fs_new_ring (backup_path t_early object_ring backups)).
  - apply (make_backup_keeps_backups_of_other_seconds
             t_early t_next object_ring object_ring backups fs_new_ring).
    left. vm_compute. discriminate.
  - vm_compute. reflexivity.
Defined.

(** ** Validation of a ring file *)

Section ring_properties.
Context `{RingLib}.

(** C3: [is_valid_ring] answers [True] exactly when the three checks pass:
    the file decodes as a ring without raising, the ring has at least one
    device, and looking up the nodes of the sample partition gives a list
    that is not empty.  A decoding that raises, an empty device list, a
    lookup that raises or finds no node each give [False]. *)
Theorem is_valid_ring_iff ring_file fs :
  (is_valid_ring ring_file fs = true <->
   exists r ds nodes,
     Ring ring_file fs = Returned r /\
     devs r = Returned ds /\ (1 <= length ds)%nat /\
     get_part_nodes r 1 = Returned nodes /\ nodes <> []) /\
  ((exists e, Ring ring_file fs = Raised e) -> is_valid_ring ring_file fs = false) /\
  (forall r, Ring ring_file fs = Returned r ->
     devs r = Returned [] \/
     (exists e, get_part_nodes r 1 = Raised e) \/
     get_part_nodes r 1 = Returned [] ->
     is_valid_ring ring_file fs = false).
Proof.
  unfold is_valid_ring. split; [split | split].
  - destruct (Ring ring_file fs) as [r | e]; [| done].
    destruct (devs r) as [ds | e] eqn:Hdevs; [| done].
    destruct (Z.of_nat (length ds) <? 1) eqn:Hlen; [done |].
    destruct (get_part_nodes r 1) as [nodes | e] eqn:Hnodes; [| done].
    case_bool_decide as Hempty; [done |]. intros _.
    exists r, ds, nodes. apply Z.ltb_ge in Hlen.
    split; [done |]. split; [done |]. split; [lia |]. by split.
  - intros (r & ds & nodes & -> & -> & Hlen & -> & Hnodes).
    destruct (Z.of_nat (length ds) <? 1) eqn:Hlt.
    + apply Z.ltb_lt in Hlt. lia.
    + by rewrite bool_decide_eq_false_2.
  - by intros [e ->].
  - intros r -> Hfail. destruct (devs r) as [ds | e]; [| done].
    destruct Hfail as [[= ->] | [[e ->] | ->]]; [done | ..];
      by destruct (Z.of_nat (length ds) <? 1).
Qed.

(** C5: validating a ring file raises two different errors: "md5 missmatch"
    when the expected digest is not the digest of the file, "Invalid ring"
    when the digest matches and the file is not a valid ring; it raises
    nothing when both checks pass. *)
Theorem validate_ring_errors ring_file expected_md5 fs B :
  open_rb fs ring_file = Returned B ->
  (expected_md5 <> md5_hex B ->
     _validate_ring ring_file expected_md5 fs = Raised (Exception "md5 missmatch")) /\
  (expected_md5 = md5_hex B -> is_valid_ring ring_file fs = false ->
     _validate_ring ring_file expected_md5 fs = Raised (Exception "Invalid ring")) /\
  (expected_md5 = md5_hex B -> is_valid_ring ring_file fs = true ->
     _validate_ring ring_file expected_md5 fs = Returned tt) /\
  Exception "md5 missmatch" <> Exception "Invalid ring".
Proof.
  intros HB. unfold _validate_ring, md5matches.
  rewrite get_md5sum_one_shot by done. unfold one_shot_md5sum. rewrite HB.
  repeat split.
  - intros Hne. by rewrite bool_decide_eq_false_2.
  - intros -> ->. by rewrite bool_decide_eq_true_2.
  - intros -> ->. by rewrite bool_decide_eq_true_2.
  - discriminate.
Qed.

End ring_properties.

Lemma validate_ring_errors_witness :
  @_validate_ring sample_ring_lib "/tmp/object.ring.gz" "badmd5" test_fs =
    Raised (Exception "md5 missmatch") /\
  @_validate_ring sample_ring_lib "/tmp/test.ring.gz"
    "0cea02297069d9e8502d2b716bc63a16" test_fs = Raised (Exception "Invalid ring") /\
  @_validate_ring sample_ring_lib "/tmp/object.ring.gz"
    (md5_hex (list_byte_of_string "R0123")) test_fs = Returned tt.
Proof.
  split; [| split].
  - apply (@validate_ring_errors sample_ring_lib "/tmp/object.ring.gz" "badmd5" test_fs
             (list_byte_of_string "R0123")).
    + vm_compute. reflexivity.
    + vm_compute. discriminate.
  - apply (@validate_ring_errors sample_ring_lib "/tmp/test.ring.gz" _ test_fs
             (list_byte_of_string "whatisthis.")).
    + vm_compute. reflexivity.
    + vm_compute. reflexivity.
    + vm_compute. reflexivity.
  - apply (@validate_ring_errors sample_ring_lib "/tmp/object.ring.gz" _ test_fs
             (list_byte_of_string "R0123")).
    + vm_compute. reflexivity.
    + reflexivity.
    + vm_compute. reflexivity.
Defined.

(** ** Fetching a ring *)

(** C4: what [fetch_ring] returns and logs for each thing [urlopen] can do:
    a 304 gives [None] and the debug line; a status other than 200 and 304
    gives [False] and the one warning; an HTTP error other than 304 and a
    URL error give [False] and the communication error line; any other
    exception gives [False] and the generic error line.  The call returns
    in every case. *)
Theorem fetch_ring_outcomes :
  (forall body digest,
     fetch_ring (Response 304 body digest) =
       (Returned PyNone, [(DEBUG, "Ring-master reports ring unchanged.")])) /\
  fetch_ring (RaisesHTTPError 304) =
    (Returned PyNone, [(DEBUG, "Ring-master reports ring unchanged.")]) /\
  (forall code body digest, code <> 200 -> code <> 304 ->
     fetch_ring (Response code body digest) =
       (Returned PyFalse, [(WARNING, "Received non 200 status code")])) /\
  (forall code, code <> 304 ->
     fetch_ring (RaisesHTTPError code) =
       (Returned PyFalse, [(ERROR, "Error communicating with ring-master")])) /\
  fetch_ring RaisesURLError =
    (Returned PyFalse, [(ERROR, "Error communicating with ring-master")]) /\
  fetch_ring RaisesOther =
    (Returned PyFalse, [(ERROR, "Error retrieving or checking on ring")]) /\
  (forall e digest,
     fetch_ring (Response 200 (Raised e) digest) =
       (Returned PyFalse, [(ERROR, "Error retrieving or checking on ring")])) /\
  (forall r, exists v, (fetch_ring r).1 = Returned v).
Proof.
  repeat split; try done.
  - intros code body digest H200 H304. unfold fetch_ring.
    destruct (Z.eqb_spec code 304); [done |].
    by destruct (Z.eqb_spec code 200).
  - intros code H304. unfold fetch_ring.
    by destruct (Z.eqb_spec code 304).
  - intros [code [bytes | e] digest | code | |]; simpl; try by eexists.
    + destruct (code =? 304); [by eexists |]. destruct (code =? 200); by eexists.
    + destruct (code =? 304); [by eexists |]. destruct (code =? 200); by eexists.
    + destruct (code =? 304); by eexists.
Qed.

(** ** EmailNotify *)

(** C9 (amended): the constructor never raises "No smtplib recipients in
    conf.": when the key maps to a string the list of recipients has at
    least one element.  When the key is missing the constructor fails
    before the guard, with [AttributeError] if the port setting parses as
    an integer and with the [ValueError] of [int] if it does not. *)
Theorem EmailNotify_guard_unreachable conf :
  EmailNotify_init conf <> Raised (Exception "No smtplib recipients in conf.") /\
  (forall v, conf !! "smtplib_recipients" = Some v ->
     strip <$> split_on "," v <> [] /\
     (forall obj, EmailNotify_init conf = Returned obj -> recipients obj <> [])) /\
  (conf !! "smtplib_recipients" = None ->
     (is_Some (py_int (default "25" (conf !! "smtplib_port"))) ->
        EmailNotify_init conf = Raised AttributeError) /\
     (py_int (default "25" (conf !! "smtplib_port")) = None ->
        EmailNotify_init conf = Raised ValueError)).
Proof.
  assert (forall v, strip <$> split_on "," v <> []) as Hsplit.
  { intros v Hnil. apply fmap_nil_inv in Hnil. by apply split_on_nonempty in Hnil. }
  unfold EmailNotify_init.
  destruct (py_int (default "25" (conf !! "smtplib_port"))) as [port |].
  - destruct (conf !! "smtplib_recipients") as [v |].
    + rewrite bool_decide_eq_false_2 by apply Hsplit.
      split; [done |]. split; [| done].
      intros v' [= <-]. split; [apply Hsplit |].
      intros obj [= <-]. apply Hsplit.
    + split; [done |]. split; [done |]. intros _. split; [done |]. done.
  - split; [done |]. split.
    + intros v Hv. split; [apply Hsplit | done].
    + intros _. split; [by intros [? ?] | done].
Qed.

(** C9, as stated, fails in its last clause: here the key is missing and the
    constructor stops at [int] with a [ValueError], not at [split] with an
    [AttributeError]. *)
Lemma EmailNotify_missing_key_bad_port :
  conf_bad_port !! "smtplib_recipients" = None /\
  EmailNotify_init conf_bad_port = Raised ValueError /\
  EmailNotify_init conf_bad_port <> Raised AttributeError.
Proof. repeat split; try (vm_compute; reflexivity). vm_compute. discriminate. Qed.

(** ** The properties on the sample node *)

Lemma md5matches_iff_digest_witness :
  md5matches object_ring "8094edfaa77c39def8e8477bc0136acc" swift_fs = Returned true /\
  md5matches object_ring "badmd5" swift_fs = Returned false.
Proof.
  assert (open_rb swift_fs object_ring = Returned ring_v1) as Hopen
    by (vm_compute; reflexivity).
  destruct (md5matches_iff_digest object_ring swift_fs ring_v1 Hopen) as [Hyes Hno].
  split.
  - exact Hyes.
  - apply Hno. vm_compute. discriminate.
Defined.


Lemma get_md5sum_zero_chunk_witness :
  get_md5sum object_ring 0 swift_fs = Returned "d41d8cd98f00b204e9800998ecf8427e".
Proof.
  apply (get_md5sum_zero_chunk object_ring swift_fs ring_v1).
  vm_compute. reflexivity.
Defined.

Lemma make_backup_returns_backup_digest_witness :
  exists B,
    open_rb fs_backed_up "/etc/swift/backups/1700000000.object.ring.gz" = Returned B /\
    "8094edfaa77c39def8e8477bc0136acc" = md5_hex B /\
    open_rb swift_fs object_ring = Returned B.
Proof.
  apply (make_backup_returns_backup_digest t_early object_ring backups swift_fs
           fs_backed_up "/etc/swift/backups/1700000000.object.ring.gz"
           "8094edfaa77c39def8e8477bc0136acc").
  unfold fs_backed_up.
  destruct (make_backup t_early object_ring backups swift_fs) as [fs' r] eqn:Hmb.
  simpl. f_equal.
  change r with (fs', r).2. rewrite <- Hmb. vm_compute. reflexivity.
Defined.


(** * Further properties of srm/utils.py *)

(** ** Digests *)

Example format_message_ex :
  format_message "ringmaster@localhost" ["ops@example.org"; "o'neil@example.org"]
                 "ring" "changed" =
  "From: ringmaster@localhost" +:+ newline +:+
  "        To: ['ops@example.org', " +:+ String dquote "o'neil@example.org" +:+
  String dquote "]" +:+ newline +:+
  "        Subject: ring" +:+ newline +:+ newline +:+
  "        changed" +:+ newline +:+ "        ".
Proof. vm_compute. reflexivity. Qed.




Example md5matches_missing_file :
  md5matches "/etc/swift/container.ring.gz" "8094edfaa77c39def8e8477bc0136acc" swift_fs =
    Raised (OSError ENOENT) /\
  md5matches "/etc/swift" "8094edfaa77c39def8e8477bc0136acc" swift_fs =
    Raised (OSError EISDIR).
Proof. split; vm_compute; reflexivity. Qed.

Lemma hex_digit_lower n : is_lower_hex (MD5.hex_digit n) = true.
Proof.
  unfold MD5.hex_digit. generalize (Z.to_nat n). intros k.
  do 16 (destruct k as [| k]; [reflexivity |]). by destruct k.
Qed.

Lemma hex_shape bs :
  String.length (MD5.hex bs) = (2 * length bs)%nat /\
  all_chars is_lower_hex (MD5.hex bs) = true.
Proof.
  with_strategy transparent [MD5.hex]
    (induction bs as [| b bs [IHlen IHall]]; [done |];
     cbn [MD5.hex String.length all_chars length];
     rewrite !hex_digit_lower, IHlen, IHall; split; [lia | done]).
Qed.

Lemma digest_length msg : length (MD5.digest msg) = 16%nat.
Proof.
  with_strategy transparent [MD5.digest]
    (unfold MD5.digest;
     destruct (fold_left MD5.compress _ MD5.init_state) as [[[a b] c] d];
     reflexivity).
Qed.

Lemma hexdigest_shape h : is_md5_hex (MD5.hexdigest h) = true.
Proof.
  unfold is_md5_hex, MD5.hexdigest.
  destruct (hex_shape (MD5.digest h)) as [-> ->].
  by rewrite digest_length.
Qed.

(** X3: whatever [get_md5sum] returns is 32 lower-case hex digits, so
    [md5matches] answers [False] for every expected digest of another
    shape: one in upper case, one in quotes, one cut short. *)
Theorem md5matches_needs_lower_hex target_file expected_md5 fs :
  (forall chunk_size d,
     get_md5sum target_file chunk_size fs = Returned d -> is_md5_hex d = true) /\
  (is_md5_hex expected_md5 = false ->
   md5matches target_file expected_md5 fs <> Returned true /\
   forall B, open_rb fs target_file = Returned B ->
             md5matches target_file expected_md5 fs = Returned false).
Proof.
  split.
  - intros n d. unfold get_md5sum.
    destruct (open_rb fs target_file) as [B | e]; [| done].
    destruct (read n B) as [block rest]. intros [= <-]. apply hexdigest_shape.
  - intros Hshape.
    assert (forall B, md5_hex B <> expected_md5) as Hne.
    { intros B Heq. rewrite <- Heq in Hshape. unfold md5_hex in Hshape.
      by rewrite hexdigest_shape in Hshape. }
    unfold md5matches. rewrite get_md5sum_one_shot by done. unfold one_shot_md5sum.
    split.
    + destruct (open_rb fs target_file) as [B | e]; [| done].
      by rewrite bool_decide_eq_false_2.
    + intros B ->. by rewrite bool_decide_eq_false_2.
Qed.

(** The digest of the ring in upper case, and as a quoted entity tag. *)
Example md5matches_other_shapes :
  md5matches object_ring "8094EDFAA77C39DEF8E8477BC0136ACC" swift_fs = Returned false /\
  md5matches object_ring
    (String dquote "8094edfaa77c39def8e8477bc0136acc" +:+ String dquote "") swift_fs =
    Returned false.
Proof. split; vm_compute; reflexivity. Qed.

(** ** Backups *)

Lemma open_rb_inv fs p B :
  open_rb fs p = Returned B <->
  p <> "" /\ stat fs (resolve fs p) = Some (File B) /\ endswith_char "/" p = false.
Proof.
  unfold open_rb. destruct p as [| a s]; [split; [done | by intros [? _]] |].
  destruct (stat fs _) as [[content |] |].
  - destruct (endswith_char "/" (String a s)).
    + split; [done | by intros (_ & _ & ?)].
    + split; [by intros [= ->] | by intros (_ & [= ->] & _)].
  - split; [done | by intros (_ & ? & _)].
  - split; [done | by intros (_ & ? & _)].
Qed.

(** Writing a content over an entry that holds it already changes nothing
    there. *)
Lemma write_wb_same_content p content fs q :
  stat fs q = Some (File content) ->
  stat (write_wb p content fs).1 q = Some (File content).
Proof.
  intros Hq. destruct (decide (q = resolve fs p)) as [-> | Hne].
  - unfold write_wb. fs_cases; simpl fst; try congruence;
      (rewrite stat_insert; [by rewrite decide_True | apply (stat_root_inv fs); congruence]).
  - by rewrite write_wb_stat.
Qed.

Lemma copy_keeps_source src dst fs B :
  stat fs (resolve fs src) = Some (File B) ->
  stat (copy src dst fs).1 (resolve fs src) = Some (File B).
Proof.
  intros Hst. unfold copy. case_bool_decide; [done |].
  destruct (open_rb fs src) as [content | e] eqn:Hopen; [| done].
  apply open_rb_inv in Hopen as (_ & Hst' & _).
  assert (content = B) as -> by congruence.
  by apply write_wb_same_content.
Qed.

Lemma make_backup_keeps_source now filename backup_dir fs B :
  open_rb fs filename = Returned B ->
  open_rb (make_backup now filename backup_dir fs).1 filename = Returned B.
Proof.
  intros (Hne & Hst & Hend)%open_rb_inv. apply open_rb_inv.
  rewrite (resolve_cwd fs) by apply make_backup_cwd.
  split; [done |]. split; [| done].
  pose proof (mkdir_keeps backup_dir fs _ _ Hst) as Hst1.
  destruct (make_backup_fst now filename backup_dir fs) as [-> | ->]; [done |].
  rewrite <- (resolve_cwd fs (mkdir backup_dir fs).1 filename) in * by apply mkdir_cwd.
  by apply copy_keeps_source.
Qed.

(** What a successful run of the copy step wrote, and where. *)
Lemma make_backup_copy_success now filename backup_dir fs fs' backup d :
  make_backup_copy now filename backup_dir fs = (fs', Returned (backup, d)) ->
  exists B, open_rb fs filename = Returned B /\
            write_wb (backup_path now filename backup_dir) B fs = (fs', Returned tt).
Proof.
  unfold make_backup_copy.
  destruct (copy _ _ fs) as [fs2 [[] | e]] eqn:Hcopy; [| done].
  destruct (get_md5sum _ _ fs2) as [d' | e] eqn:Hsum; [| done].
  intros Heq. injection Heq as <- <- <-.
  apply copy_ok in Hcopy as (content & Hsrc & Hw).
  exists content. split; [done |].
  set (backup := backup_path now filename backup_dir) in *.
  destruct (isdir fs backup) eqn:Hdir; [| done].
  exfalso. apply isdir_stat in Hdir as [Hne Hst].
  assert (cwd fs2 = cwd fs) as Hcwd.
  { match type of Hw with
    | write_wb ?dst _ _ = _ => pose proof (write_wb_cwd dst content fs) as Hc
    end. by rewrite Hw in Hc. }
  assert (stat fs2 (resolve fs backup) = Some Dir) as Hst'.
  { match type of Hw with
    | write_wb ?dst _ _ = _ => pose proof (write_wb_dir dst content fs _ Hst) as Hd
    end. by rewrite Hw in Hd. }
  unfold get_md5sum, open_rb in Hsum. rewrite (resolve_cwd fs), Hst' in Hsum by done.
  by destruct backup.
Qed.

(** A successful [make_backup], taken apart: the state [mkdir] left, the
    content of the source, the write of the backup. *)
Lemma make_backup_success now filename backup_dir fs fs' backup d :
  make_backup now filename backup_dir fs = (fs', Returned (backup, d)) ->
  backup = backup_path now filename backup_dir /\
  exists B, d = md5_hex B /\
    open_rb fs filename = Returned B /\
    open_rb fs' backup = Returned B /\
    write_wb backup B (mkdir backup_dir fs).1 = (fs', Returned tt).
Proof.
  intros Hmb.
  destruct (make_backup_cases now filename backup_dir fs)
    as [(errno & _ & _ & Hraise) | [_ Hrun]]; [congruence |].
  rewrite Hrun in Hmb.
  destruct (make_backup_copy_ok _ _ _ _ _ _ _ Hmb) as (-> & B & Hsrc & Hdst & ->).
  destruct (make_backup_copy_success _ _ _ _ _ _ _ Hmb) as (B' & Hsrc' & Hw).
  assert (B' = B) as -> by congruence.
  split; [done |]. exists B. repeat split; try done.
  by apply mkdir_open_rb in Hsrc.
Qed.

(** X4: [make_backup] never changes the file it backs up: a source that
    could be read holds the same bytes afterwards, whether the backup
    succeeded or not. *)
Theorem make_backup_leaves_source now filename backup_dir fs B :
  open_rb fs filename = Returned B ->
  open_rb (make_backup now filename backup_dir fs).1 filename = Returned B /\
  get_md5sum filename default_chunk_size (make_backup now filename backup_dir fs).1 =
    get_md5sum filename default_chunk_size fs.
Proof.
  intros Hopen. pose proof (make_backup_keeps_source now _ backup_dir _ _ Hopen) as Hkept.
  split; [done |].
  rewrite !get_md5sum_one_shot by done. unfold one_shot_md5sum.
  by rewrite Hkept, Hopen.
Qed.

Lemma make_backup_leaves_source_witness :
  open_rb fs_backed_up object_ring = Returned ring_v1.
Proof.
  apply (make_backup_leaves_source t_early object_ring backups swift_fs ring_v1).
  vm_compute. reflexivity.
Defined.

(** X5: a successful [make_backup] changes nothing but the backup: every
    entry that was there is still there unchanged, except the backup file
    when it is overwritten, and the only entries that can be new are the
    backup directory and the backup file. *)
Theorem make_backup_success_frame now filename backup_dir fs fs' backup d :
  make_backup now filename backup_dir fs = (fs', Returned (backup, d)) ->
  cwd fs' = cwd fs /\
  (forall q n, stat fs q = Some n -> q <> resolve fs backup -> stat fs' q = Some n) /\
  (forall q, q <> resolve fs backup_dir -> q <> resolve fs backup ->
             stat fs' q = stat fs q).
Proof.
  intros Hmb.
  destruct (make_backup_success _ _ _ _ _ _ _ Hmb) as (-> & B & _ & _ & _ & Hw).
  pose proof (mkdir_cwd backup_dir fs) as Hcwd.
  assert (fs' = (write_wb (backup_path now filename backup_dir) B (mkdir backup_dir fs).1).1)
    as -> by (by rewrite Hw).
  split; [| split].
  - by rewrite write_wb_cwd.
  - intros q n Hq Hne. rewrite write_wb_stat by (by rewrite (resolve_cwd fs)).
    by apply mkdir_keeps.
  - intros q Hdir Hne. rewrite write_wb_stat by (by rewrite (resolve_cwd fs)).
    by apply mkdir_stat.
Qed.

Lemma make_backup_success_frame_witness :
  stat fs_backed_up ["etc"; "swift"; "object.ring.gz"] = Some (File ring_v1) /\
  stat fs_backed_up ["etc"; "swift"; "container.ring.gz"] = None.
Proof.
  assert (make_backup t_early object_ring backups swift_fs =
          (fs_backed_up, Returned ("/etc/swift/backups/1700000000.object.ring.gz",
                                   "8094edfaa77c39def8e8477bc0136acc"))) as Hmb.
  { unfold fs_backed_up.
    destruct (make_backup t_early object_ring backups swift_fs) as [fs' r] eqn:Heq.
    simpl. f_equal. change r with (fs', r).2. rewrite <- Heq. vm_compute. reflexivity. }
  destruct (make_backup_success_frame _ _ _ _ _ _ _ Hmb) as (_ & Hkept & Hframe).
  split.
  - apply Hkept; [vm_compute; reflexivity | vm_compute; discriminate].
  - rewrite Hframe; [vm_compute; reflexivity | vm_compute; discriminate ..].
Defined.

(** X6: the digest [make_backup] returns verifies: in the state it leaves,
    [md5matches] answers [True] for the backup and for the source with that
    digest, and [False] for the backup with any other one. *)
Theorem make_backup_digest_matches now filename backup_dir fs fs' backup d :
  make_backup now filename backup_dir fs = (fs', Returned (backup, d)) ->
  md5matches backup d fs' = Returned true /\
  md5matches filename d fs' = Returned true /\
  (forall D, D <> d -> md5matches backup D fs' = Returned false).
Proof.
  intros Hmb.
  destruct (make_backup_success _ _ _ _ _ _ _ Hmb) as (-> & B & -> & Hsrc & Hdst & _).
  pose proof (make_backup_keeps_source now _ backup_dir _ _ Hsrc) as Hkept.
  rewrite Hmb in Hkept. simpl in Hkept.
  unfold md5matches. rewrite !get_md5sum_one_shot by done. unfold one_shot_md5sum.
  rewrite Hdst, Hkept. split; [| split].
  - by rewrite bool_decide_eq_true_2.
  - by rewrite bool_decide_eq_true_2.
  - intros D HD. by rewrite bool_decide_eq_false_2.
Qed.

Lemma make_backup_digest_matches_witness :
  md5matches "/etc/swift/backups/1700000000.object.ring.gz"
    "8094edfaa77c39def8e8477bc0136acc" fs_backed_up = Returned true.
Proof.
  apply (make_backup_digest_matches t_early object_ring backups swift_fs fs_backed_up
           "/etc/swift/backups/1700000000.object.ring.gz"
           "8094edfaa77c39def8e8477bc0136acc").
  unfold fs_backed_up.
  destruct (make_backup t_early object_ring backups swift_fs) as [fs' r] eqn:Heq.
  simpl. f_equal. change r with (fs', r).2. rewrite <- Heq. vm_compute. reflexivity.
Defined.



(** X8: whatever the file name (absolute, with [..] in it, ending in a
    slash), a successful [make_backup] puts the copy directly inside the
    backup directory: the path it returns leads to the backup directory,
    then one name that holds no slash, and the copy is there. *)
Theorem make_backup_writes_inside_backup_dir now filename backup_dir fs fs' backup d :
  make_backup now filename backup_dir fs = (fs', Returned (backup, d)) ->
  exists name B,
    resolve fs backup = resolve fs backup_dir ++ [name] /\
    contains_char "/" name = false /\
    name = fmt_d (int_of_time now) +:+ "." +:+ basename filename /\
    open_rb fs filename = Returned B /\
    stat fs' (resolve fs backup_dir ++ [name]) = Some (File B).
Proof.
  intros Hmb.
  destruct (make_backup_success _ _ _ _ _ _ _ Hmb) as (-> & B & _ & Hsrc & Hdst & _).
  exists (backup_name now filename), B.
  split; [apply resolve_backup_path |]. split; [apply backup_name_no_slash |].
  split; [done |]. split; [done |].
  apply open_rb_inv in Hdst as (_ & Hst & _).
  assert (cwd fs' = cwd fs) as Hcwd.
  { pose proof (make_backup_cwd now filename backup_dir fs) as Hc. by rewrite Hmb in Hc. }
  by rewrite (resolve_cwd fs), resolve_backup_path in Hst.
Qed.

Lemma make_backup_writes_inside_backup_dir_witness :
  exists name B,
    resolve swift_fs "/etc/swift/backups/1700000000.object.ring.gz" =
      resolve swift_fs backups ++ [name] /\
    contains_char "/" name = false /\
    name = fmt_d (int_of_time t_early) +:+ "." +:+ basename "/etc/swift/../swift/object.ring.gz" /\
    open_rb swift_fs "/etc/swift/../swift/object.ring.gz" = Returned B /\
    stat (make_backup t_early "/etc/swift/../swift/object.ring.gz" backups swift_fs).1
      (resolve swift_fs backups ++ [name]) = Some (File B).
Proof.
  apply (make_backup_writes_inside_backup_dir t_early "/etc/swift/../swift/object.ring.gz"
           backups swift_fs
           (make_backup t_early "/etc/swift/../swift/object.ring.gz" backups swift_fs).1
           "/etc/swift/backups/1700000000.object.ring.gz"
           "8094edfaa77c39def8e8477bc0136acc").
  destruct (make_backup t_early "/etc/swift/../swift/object.ring.gz" backups swift_fs)
    as [fs' r] eqn:Heq.
  simpl. f_equal. change r with (fs', r).2. rewrite <- Heq. vm_compute. reflexivity.
Defined.

Lemma make_backup_keeps_other_backup now1 now2 f1 f2 backup_dir fs :
  backup_name now1 f1 <> backup_name now2 f2 ->
  open_rb (make_backup now2 f2 backup_dir fs).1 (backup_path now1 f1 backup_dir) =
    open_rb fs (backup_path now1 f1 backup_dir).
Proof.
  intros Hname. apply open_rb_ext; [apply make_backup_cwd |].
  rewrite resolve_backup_path. apply make_backup_stat.
  - intros Heq%(f_equal length). rewrite length_app in Heq. simpl in Heq. lia.
  - intros Heq%app_inv_head. congruence.
  - by apply snoc_ne_walk_snoc.
Qed.

(** X9: two backups of an unchanged file taken in different seconds, one
    after the other: when both succeed they are two files, both hold what
    the source holds, and the two digests returned are the same. *)
Theorem make_backup_twice now1 now2 filename backup_dir fs fs1 fs2 p1 d1 p2 d2 :
  int_of_time now1 <> int_of_time now2 ->
  make_backup now1 filename backup_dir fs = (fs1, Returned (p1, d1)) ->
  make_backup now2 filename backup_dir fs1 = (fs2, Returned (p2, d2)) ->
  p1 <> p2 /\ d1 = d2 /\
  exists B, open_rb fs2 p1 = Returned B /\ open_rb fs2 p2 = Returned B /\
            open_rb fs2 filename = Returned B /\ d1 = md5_hex B.
Proof.
  intros Hsec Hmb1 Hmb2.
  destruct (make_backup_success _ _ _ _ _ _ _ Hmb1) as (-> & B & -> & Hsrc & Hdst1 & _).
  destruct (make_backup_success _ _ _ _ _ _ _ Hmb2) as (-> & B' & -> & Hsrc' & Hdst2 & _).
  pose proof (make_backup_keeps_source now1 _ backup_dir _ _ Hsrc) as Hkept1.
  rewrite Hmb1 in Hkept1. simpl in Hkept1.
  assert (B' = B) as -> by congruence.
  pose proof (make_backup_keeps_source now2 _ backup_dir _ _ Hsrc') as Hkept2.
  rewrite Hmb2 in Hkept2. simpl in Hkept2.
  assert (backup_name now1 filename <> backup_name now2 filename) as Hname.
  { by intros [? _]%backup_name_inj. }
  split; [| split; [done |]].
  - by intros [? _]%backup_path_inj.
  - exists B. split; [| by repeat split].
    pose proof (make_backup_keeps_other_backup now1 now2 filename filename backup_dir fs1 Hname)
      as Hother.
    rewrite Hmb2 in Hother. simpl in Hother. by rewrite Hother.
Qed.

Lemma make_backup_twice_witness :
  exists B,
    open_rb (make_backup t_next object_ring backups fs_backed_up).1
      "/etc/swift/backups/1700000000.object.ring.gz" = Returned B /\
    open_rb (make_backup t_next object_ring backups fs_backed_up).1
      "/etc/swift/backups/1700000001.object.ring.gz" = Returned B /\
    open_rb (make_backup t_next object_ring backups fs_backed_up).1 object_ring = Returned B /\
    "8094edfaa77c39def8e8477bc0136acc" = md5_hex B.
Proof.
  apply (make_backup_twice t_early t_next object_ring backups swift_fs fs_backed_up
           (make_backup t_next object_ring backups fs_backed_up).1
           "/etc/swift/backups/1700000000.object.ring.gz" "8094edfaa77c39def8e8477bc0136acc"
           "/etc/swift/backups/1700000001.object.ring.gz" "8094edfaa77c39def8e8477bc0136acc").
  - vm_compute. discriminate.
  - unfold fs_backed_up.
    destruct (make_backup t_early object_ring backups swift_fs) as [fs' r] eqn:Heq.
    simpl. f_equal. change r with (fs', r).2. rewrite <- Heq. vm_compute. reflexivity.
  - destruct (make_backup t_next object_ring backups fs_backed_up) as [fs' r] eqn:Heq.
    simpl. f_equal. change r with (fs', r).2. rewrite <- Heq. vm_compute. reflexivity.
Defined.

(** ** The e-mail notifier *)

Lemma length_split_on c s : length (split_on c s) = S (count_char c s).
Proof.
  induction s as [| a s IH]; [done |].
  cbn [split_on count_char]. destruct (Ascii.eqb a c).
  - simpl. by rewrite IH.
  - pose proof (split_on_nonempty c s) as Hne.
    destruct (split_on c s) as [| w ws]; [done |]. simpl in *. lia.
Qed.

Lemma contains_char_lstrip c s :
  contains_char c s = false -> contains_char c (lstrip s) = false.
Proof.
  induction s as [| a s IH]; [done |].
  cbn [lstrip]. destruct (is_space a); [| done].
  cbn [contains_char]. intros [_ Hs]%orb_false_elim. by apply IH.
Qed.

Lemma contains_char_rstrip c s :
  contains_char c s = false -> contains_char c (rstrip s) = false.
Proof.
  induction s as [| a s IH]; [done |].
  cbn [contains_char]. intros [Ha Hs]%orb_false_elim. specialize (IH Hs).
  cbn [rstrip]. destruct (rstrip s) as [| b r].
  - destruct (is_space a); [done |]. cbn [contains_char]. by rewrite Ha.
  - cbn [contains_char] in *. by rewrite Ha, IH.
Qed.

Lemma rstrip_cons a s : is_space a = false -> rstrip (String a s) = String a (rstrip s).
Proof. intros Ha. cbn [rstrip]. destruct (rstrip s); by rewrite ?Ha. Qed.

Lemma rstrip_idem s : rstrip (rstrip s) = rstrip s.
Proof.
  induction s as [| a s IH]; [done |].
  cbn [rstrip]. destruct (rstrip s) as [| b r] eqn:Hr.
  - destruct (is_space a) eqn:Ha; [done |]. cbn [rstrip]. by rewrite Ha.
  - change (rstrip (String a (String b r))) with
      (match rstrip (String b r) with
       | EmptyString => if is_space a then EmptyString else String a EmptyString
       | r' => String a r'
       end).
    by rewrite IH.
Qed.

Lemma lstrip_head s :
  lstrip s = "" \/ exists a s', lstrip s = String a s' /\ is_space a = false.
Proof.
  induction s as [| a s IH]; [by left |].
  cbn [lstrip]. destruct (is_space a) eqn:Ha; [done |]. right. by exists a, s.
Qed.

Lemma strip_idem s : strip (strip s) = strip s.
Proof.
  unfold strip. destruct (lstrip_head s) as [-> | (a & s' & -> & Ha)]; [done |].
  rewrite rstrip_cons by done. cbn [lstrip]. rewrite Ha.
  rewrite rstrip_cons by done. by rewrite rstrip_idem.
Qed.

(** X10: the recipients are the pieces of the setting between commas, each
    stripped of blanks: there is always one more recipient than there are
    commas (empty pieces are kept), no recipient holds a comma, and none
    has blanks left around it. *)
Theorem EmailNotify_recipients conf v obj :
  conf !! "smtplib_recipients" = Some v ->
  EmailNotify_init conf = Returned obj ->
  recipients obj = strip <$> split_on "," v /\
  length (recipients obj) = S (count_char "," v) /\
  Forall (fun r => contains_char "," r = false /\ strip r = r) (recipients obj).
Proof.
  intros Hv. unfold EmailNotify_init. rewrite Hv.
  destruct (py_int _) as [port |]; [| done].
  case_bool_decide; [done |]. intros [= <-]. cbn [recipients].
  split; [done |]. split.
  - by rewrite length_fmap, length_split_on.
  - apply Forall_fmap. eapply Forall_impl; [apply (split_on_pieces "," v) |].
    intros w Hw. cbn. split; [| apply strip_idem].
    unfold strip. by apply contains_char_rstrip, contains_char_lstrip.
Qed.

Lemma EmailNotify_recipients_witness :
  exists obj,
    EmailNotify_init {[ "smtplib_recipients" := "ops@example.org, ,root@localhost," ]}
      = Returned obj /\
    recipients obj = ["ops@example.org"; ""; "root@localhost"; ""] /\
    length (recipients obj) = 4%nat.
Proof.
  destruct (EmailNotify_init {[ "smtplib_recipients" := "ops@example.org, ,root@localhost," ]})
    as [obj | e] eqn:Hinit; [| vm_compute in Hinit; discriminate].
  exists obj. split; [done |].
  destruct (EmailNotify_recipients
              {[ "smtplib_recipients" := "ops@example.org, ,root@localhost," ]}
              "ops@example.org, ,root@localhost," obj) as (Hrec & Hlen & _).
  - vm_compute. reflexivity.
  - exact Hinit.
  - split; [rewrite Hrec; vm_compute; reflexivity | rewrite Hlen; reflexivity].
Defined.

(** A call is not among the calls listed. *)
Ltac not_among_calls H :=
  repeat (apply elem_of_cons in H as [H | H]; [discriminate H |]);
  apply not_elem_of_nil in H.

(** X11: [send_message] never raises.  It returns [True] exactly when the
    connection, [ehlo], [sendmail] and [close] all go through, with the
    envelope carrying the notifier's sender and recipients; otherwise it
    returns [False], logs "Email notification error." once, and stops at
    the call that failed, so a failure before [close] leaves the
    connection unclosed. *)
Theorem send_message_never_raises self subject body server :
  let result := send_message self subject body server in
  let conv := smtp_conversation self subject body in
  (result.1.1 = Returned true \/ result.1.1 = Returned false) /\
  (result.1.1 = Returned true <->
   forall k, (1 <= k <= 4)%nat -> exists u, server (take k conv) = Returned u) /\
  (result.1.1 = Returned true -> result.1.2 = conv /\ result.2 = []) /\
  (result.1.1 = Returned false ->
   result.2 = [(ERROR, "Email notification error.")] /\
   exists k e, (1 <= k <= 4)%nat /\ result.1.2 = take k conv /\
               server (take k conv) = Raised e /\
               ((k < 4)%nat -> SMTP_close ∉ result.1.2)).
Proof.
  cbn zeta. unfold send_message, smtp_conversation.
  set (c1 := SMTP_connect _ _). set (c3 := SMTP_sendmail _ _ _).
  assert (forall k, (1 <= k <= 4)%nat -> k = 1%nat \/ k = 2%nat \/ k = 3%nat \/ k = 4%nat)
    as Hk by lia.
  destruct (server [c1]) as [u1 | e1] eqn:H1; cbn [app].
  2: { cbn [fst snd]. split; [by right |]. split; [| split; [done |]].
       - split; [done |]. intros Hall. destruct (Hall 1%nat ltac:(lia)) as [u Hu].
         cbn [take] in Hu. congruence.
       - intros _. split; [done |]. exists 1%nat, e1. cbn [take].
         split; [lia |]. split; [done |]. split; [done |].
         intros _ Hin. subst c1. by not_among_calls Hin. }
  destruct (server [c1; SMTP_ehlo]) as [u2 | e2] eqn:H2.
  2: { cbn [fst snd]. split; [by right |]. split; [| split; [done |]].
       - split; [done |]. intros Hall. destruct (Hall 2%nat ltac:(lia)) as [u Hu].
         cbn [take] in Hu. congruence.
       - intros _. split; [done |]. exists 2%nat, e2. cbn [take].
         split; [lia |]. split; [done |]. split; [done |].
         intros _ Hin. subst c1. by not_among_calls Hin. }
  destruct (server [c1; SMTP_ehlo; c3]) as [u3 | e3] eqn:H3.
  2: { cbn [fst snd]. split; [by right |]. split; [| split; [done |]].
       - split; [done |]. intros Hall. destruct (Hall 3%nat ltac:(lia)) as [u Hu].
         cbn [take] in Hu. congruence.
       - intros _. split; [done |]. exists 3%nat, e3. cbn [take].
         split; [lia |]. split; [done |]. split; [done |].
         intros _ Hin. subst c1 c3. by not_among_calls Hin. }
  destruct (server [c1; SMTP_ehlo; c3; SMTP_close]) as [u4 | e4] eqn:H4.
  2: { cbn [fst snd]. split; [by right |]. split; [| split; [done |]].
       - split; [done |]. intros Hall. destruct (Hall 4%nat ltac:(lia)) as [u Hu].
         cbn [take] in Hu. congruence.
       - intros _. split; [done |]. exists 4%nat, e4. cbn [take].
         split; [lia |]. split; [done |]. split; [done |]. lia. }
  cbn [fst snd]. split; [by left |]. split; [| split; [done | done]].
  split; [| done]. intros _ k Hrange.
  destruct (Hk k Hrange) as [-> | [-> | [-> | ->]]]; cbn [take]; by eexists.
Qed.

Example send_message_ex :
  (send_message sample_notifier "ring" "changed" server_accepts).1.1 = Returned true /\
  send_message sample_notifier "ring" "changed" server_refuses_recipients =
    (Returned false,
     take 3 (smtp_conversation sample_notifier "ring" "changed"),
     [(ERROR, "Email notification error.")]).
Proof. split; vm_compute; reflexivity. Qed.

(** ** The file logger *)

Lemma open_a_cwd p fs : cwd (open_a p fs).1 = cwd fs.
Proof. unfold open_a. fs_cases; done. Qed.

(** Once the log file could be opened it can be opened again, and nothing
    changes any more. *)
Lemma open_a_again p fs fs' :
  open_a p fs = (fs', Returned tt) -> open_a p fs' = (fs', Returned tt).
Proof.
  unfold open_a. destruct p as [| a s]; [done |].
  destruct (stat fs (resolve fs (String a s))) as [[content |] |] eqn:Hst.
  - destruct (endswith_char "/" (String a s)) eqn:Hend; [done |].
    intros [= <-]. by rewrite ?Hst, ?Hend.
  - done.
  - destruct (stat fs (removelast _)) as [[content |] |]; [done | | done].
    destruct (endswith_char "/" (String a s)) eqn:Hend; [done |].
    intros [= <-].
    unfold resolve. cbn [cwd]. fold (resolve fs (String a s)).
    rewrite stat_insert by (apply (stat_root_inv fs); congruence).
    by rewrite decide_True.
Qed.

Lemma logger_of_getLogger name other lg :
  logger_of (getLogger name lg) other = logger_of lg other.
Proof.
  unfold logger_of, getLogger. cbn [loggers].
  destruct (decide (logger_key name = logger_key other)) as [Heq | Hne].
  - rewrite Heq, lookup_insert_eq. cbn [default]. unfold logger_of. by rewrite Heq.
  - by rewrite lookup_insert_ne.
Qed.

(** One successful call, taken apart. *)
Lemma get_file_logger_success name log_path level count fmt fs lg w' key :
  get_file_logger name log_path level count fmt (fs, lg) = (w', Returned key) ->
  key = logger_key name /\
  open_a log_path fs = (w'.1, Returned tt) /\
  handlers_made w'.2 = S (handlers_made lg) /\
  logger_of w'.2 name =
    mkLogger (handlers (logger_of lg name) ++
              [mkHandler (handlers_made lg) (resolve fs log_path) "MIDNIGHT" count
                         (Some "%(asctime)s - %(name)s: %(message)s")]) INFO /\
  (forall other, logger_key other <> logger_key name ->
     logger_of w'.2 other = logger_of lg other).
Proof.
  unfold get_file_logger.
  destruct (open_a log_path fs) as [fs' [[] | e]]; [| done].
  intros [= <- <-]. cbn [fst snd handlers_made getLogger].
  split; [done |]. split; [done |]. split; [done |]. split.
  - unfold logger_of at 1. cbn [loggers]. rewrite lookup_insert_eq. cbn [default].
    by rewrite !logger_of_getLogger.
  - intros other Hne. unfold logger_of at 1. cbn [loggers].
    rewrite !lookup_insert_ne by done. done.
Qed.

(** X12: a successful [get_file_logger] adds one new handler for the log
    file to the logger of that name, after the handlers it had, and sets
    its level to [INFO]; the [level] and [fmt] arguments play no part, and
    the loggers of other names are left alone. *)
Theorem get_file_logger_adds_handler name log_path level count fmt fs lg w' key :
  get_file_logger name log_path level count fmt (fs, lg) = (w', Returned key) ->
  handlers (logger_of w'.2 name) =
    handlers (logger_of lg name) ++
    [mkHandler (handlers_made lg) (resolve fs log_path) "MIDNIGHT" count
               (Some "%(asctime)s - %(name)s: %(message)s")] /\
  logger_level (logger_of w'.2 name) = INFO /\
  (forall level' fmt',
     get_file_logger name log_path level' count fmt' (fs, lg) = (w', Returned key)) /\
  (forall other, logger_key other <> logger_key name ->
     logger_of w'.2 other = logger_of lg other).
Proof.
  intros Hcall.
  destruct (get_file_logger_success _ _ _ _ _ _ _ _ _ Hcall) as (_ & _ & _ & Hlog & Hother).
  rewrite Hlog. cbn [handlers logger_level].
  split; [done |]. split; [done |]. split; [| done].
  intros level' fmt'. exact Hcall.
Qed.

Lemma get_file_logger_adds_handler_witness :
  logger_level
    (logger_of (get_file_logger "ringmaster" "/var/log/ringmaster.log" 10 7 None
                  (log_fs, fresh_logging)).1.2 "ringmaster") = INFO.
Proof.
  destruct (get_file_logger "ringmaster" "/var/log/ringmaster.log" 10 7 None
              (log_fs, fresh_logging)) as [w' [key | e]] eqn:Hcall;
    [| vm_compute in Hcall; discriminate].
  apply (get_file_logger_adds_handler "ringmaster" "/var/log/ringmaster.log" 10 7 None
           log_fs fresh_logging w' key Hcall).
Defined.

Lemma get_file_logger_times_succ n name log_path level count fmt w :
  get_file_logger_times (S n) name log_path level count fmt w =
  (get_file_logger name log_path level count fmt
     (get_file_logger_times n name log_path level count fmt w)).1.
Proof. reflexivity. Qed.

(** After a call that succeeded, the same call succeeds again. *)
Lemma get_file_logger_again name log_path level count fmt w w' key :
  get_file_logger name log_path level count fmt w = (w', Returned key) ->
  exists w'', get_file_logger name log_path level count fmt w' = (w'', Returned key).
Proof.
  destruct w as [fs lg]. intros Hcall.
  destruct (get_file_logger_success _ _ _ _ _ _ _ _ _ Hcall) as (-> & Hopen & _).
  apply open_a_again in Hopen. destruct w' as [fs' lg']. cbn [fst] in Hopen.
  unfold get_file_logger. rewrite Hopen. by eexists.
Qed.

(** X13: handlers pile up.  When one call of [get_file_logger] succeeds, so
    does every repetition of it, and after [n] calls the logger of that
    name has [n] handlers more than it had, all writing to the same file,
    so each record is written [n] times. *)
Theorem get_file_logger_accumulates n name log_path level count fmt w w1 key :
  get_file_logger name log_path level count fmt w = (w1, Returned key) ->
  let wn := get_file_logger_times n name log_path level count fmt w in
  (exists w', get_file_logger name log_path level count fmt wn = (w', Returned key)) /\
  length (handlers (logger_of wn.2 name)) =
    (length (handlers (logger_of w.2 name)) + n)%nat /\
  Forall (fun h => baseFilename h = resolve w.1 log_path)
         (drop (length (handlers (logger_of w.2 name))) (handlers (logger_of wn.2 name))).
Proof.
  intros Hcall. cbn zeta. induction n as [| n (Hnext & Hlen & Hfiles)].
  - cbn. split; [by exists w1 |]. split; [lia |].
    rewrite drop_all. constructor.
  - rewrite get_file_logger_times_succ.
    set (wn := get_file_logger_times n name log_path level count fmt w) in *.
    destruct Hnext as [w' Hstep]. rewrite Hstep. cbn [fst].
    split; [by apply (get_file_logger_again _ _ _ _ _ wn) |].
    destruct wn as [fsn lgn] eqn:Hwn.
    destruct (get_file_logger_success _ _ _ _ _ _ _ _ _ Hstep) as (_ & _ & _ & -> & _).
    cbn [handlers snd] in *. split.
    + rewrite length_app, Hlen. simpl. lia.
    + rewrite drop_app_le by lia. apply Forall_app. split; [done |].
      constructor; [| constructor]. cbn [baseFilename].
      apply resolve_cwd.
      assert (cwd (fst (fsn, lgn)) = cwd w.1) as Hcwd; [| done].
      rewrite <- Hwn. clear. unfold wn. clear wn.
      induction n as [| n IH]; [done |].
      rewrite get_file_logger_times_succ.
      destruct (get_file_logger_times n name log_path level count fmt w) as [fs' lg'].
      unfold get_file_logger.
      pose proof (open_a_cwd log_path fs') as Hc.
      destruct (open_a log_path fs') as [fs'' [[] | e]]; cbn [fst] in *; congruence.
Qed.

Lemma get_file_logger_accumulates_witness :
  length (handlers (logger_of
    (get_file_logger_times 3 "ringmaster" "/var/log/ringmaster.log" 20 7 None
       (log_fs, fresh_logging)).2 "ringmaster")) = 3%nat.
Proof.
  destruct (get_file_logger "ringmaster" "/var/log/ringmaster.log" 20 7 None
              (log_fs, fresh_logging)) as [w1 [key | e]] eqn:Hcall;
    [| vm_compute in Hcall; discriminate].
  destruct (get_file_logger_accumulates 3 "ringmaster" "/var/log/ringmaster.log" 20 7 None
              (log_fs, fresh_logging) w1 key Hcall) as (_ & Hlen & _).
  rewrite Hlen. reflexivity.
Defined.

(** X14: when the log file cannot be opened, [get_file_logger] raises the
    error of [open] and gives up before the handler is attached: the file
    system is as it was, and the logger of that name keeps its handlers
    and its level. *)
Theorem get_file_logger_failure name log_path level count fmt fs lg w' e :
  get_file_logger name log_path level count fmt (fs, lg) = (w', Raised e) ->
  (open_a log_path fs).2 = Raised e /\
  w'.1 = fs /\
  handlers_made w'.2 = handlers_made lg /\
  forall other, logger_of w'.2 other = logger_of lg other.
Proof.
  unfold get_file_logger.
  destruct (open_a log_path fs) as [fs' [[] | e']] eqn:Hopen; [done |].
  intros [= <- <-]. cbn [fst snd]. split; [done |]. split.
  - revert Hopen. unfold open_a. fs_cases; by intros [= <-].
  - split; [done |]. intros other. apply logger_of_getLogger.
Qed.

Lemma get_file_logger_failure_witness :
  (get_file_logger "ringmaster" "/var/log/swift/ringmaster.log" 20 7 None
     (log_fs, fresh_logging)).2 = Raised (OSError ENOENT) /\
  logger_of (get_file_logger "ringmaster" "/var/log/swift/ringmaster.log" 20 7 None
               (log_fs, fresh_logging)).1.2 "ringmaster" = mkLogger [] NOTSET.
Proof.
  destruct (get_file_logger "ringmaster" "/var/log/swift/ringmaster.log" 20 7 None
              (log_fs, fresh_logging)) as [w' [key | e]] eqn:Hcall;
    [vm_compute in Hcall; discriminate |].
  destruct (get_file_logger_failure _ _ _ _ _ _ _ _ _ Hcall) as (Hopen & _ & _ & Hlog).
  cbn [fst snd]. split.
  - vm_compute in Hopen. injection Hopen as <-. reflexivity.
  - rewrite Hlog. vm_compute. reflexivity.
Defined.
